(** * chickenpy: the compiler and the virtual machine of the Chicken language

    A shallow embedding of [chickenpy/compiler.py] and [chickenpy/vm.py].

    Conventions of the embedding.
    - A Python [str] is the list of its Unicode code points ([pystr]).
    - A Python [int] is a [Z]; the interpreter's optional limit on the number
      of digits of int/str conversions is taken to be switched off.
    - The machine's list [self.stack] is a [list value] in index order: index
      0 is the head, the top of the stack is the last element.  The list
      holds a reference to itself at index 0; that reference is the value
      [VStack], whatever slot it sits in.
    - A Python exception that leaves a function is the result [Raise], which
      carries the machine as the exception found it (the object is mutated in
      place, so the pops done before the exception stay done).
    - ADD with the list's self-reference as an operand would make a second
      list object, or print the list. [value] has neither, and the machine
      answers [Unmodelled] there; nothing is proved about that path.
    - The calls to [log.debug] format their arguments and do nothing else;
      they are left out. *)

From Stdlib Require Import ZArith NArith List String Ascii Bool Lia Permutation.
From Stdlib Require Import DecimalString.
From Stdlib Require Decimal DecimalZ.
Import ListNotations.

Open Scope Z_scope.

(** ** Python strings *)

Definition pystr := list N.

Definition str (s : string) : pystr :=
  map N_of_ascii (list_ascii_of_string s).

Definition pystr_eq_dec : forall a b : pystr, {a = b} + {a <> b} :=
  list_eq_dec N.eq_dec.

Definition pystr_eqb (a b : pystr) : bool :=
  if pystr_eq_dec a b then true else false.

(** [str(n)] for an [int]: its decimal digits, with a minus sign below zero. *)
Definition str_of_Z (z : Z) : pystr :=
  str (NilZero.string_of_int (Z.to_int z)).

(** [sep.join(words)]. *)
Fixpoint join (sep : pystr) (words : list pystr) : pystr :=
  match words with
  | [] => []
  | [w] => w
  | w :: rest => w ++ sep ++ join sep rest
  end.

(** The code points for which [str.isspace] holds; [str.split()] cuts at
    them. *)
Definition Py_UNICODE_ISSPACE (c : N) : bool :=
  ((9 <=? c) && (c <=? 13) || (28 <=? c) && (c <=? 32)
   || (c =? 133) || (c =? 160) || (c =? 5760)
   || (8192 <=? c) && (c <=? 8202)
   || (c =? 8232) || (c =? 8233) || (c =? 8239) || (c =? 8287)
   || (c =? 12288))%N.

(** The line boundaries of [str.splitlines()], the pair CR LF apart. *)
Definition Py_UNICODE_ISLINEBREAK (c : N) : bool :=
  ((10 <=? c) && (c <=? 13) || (28 <=? c) && (c <=? 30)
   || (c =? 133) || (c =? 8232) || (c =? 8233))%N.

(** [s.splitlines()]: [cur] is the line being read, last character first. *)
Fixpoint splitlines_from (cur : pystr) (s : pystr) : list pystr :=
  match s with
  | [] => match cur with [] => [] | _ => [rev cur] end
  | c :: rest =>
      if (c =? 13)%N then
        match rest with
        | c' :: rest' =>
            if (c' =? 10)%N then rev cur :: splitlines_from [] rest'
            else rev cur :: splitlines_from [] rest
        | [] => rev cur :: splitlines_from [] rest
        end
      else if Py_UNICODE_ISLINEBREAK c then rev cur :: splitlines_from [] rest
      else splitlines_from (c :: cur) rest
  end.

Definition splitlines (s : pystr) : list pystr := splitlines_from [] s.

(** [s.split()]: the maximal runs of characters that are not white space. *)
Fixpoint split_from (cur : pystr) (s : pystr) : list pystr :=
  match s with
  | [] => match cur with [] => [] | _ => [rev cur] end
  | c :: rest =>
      if Py_UNICODE_ISSPACE c then
        match cur with
        | [] => split_from [] rest
        | _ => rev cur :: split_from [] rest
        end
      else split_from (c :: cur) rest
  end.

Definition split (s : pystr) : list pystr := split_from [] s.

(** ** Opcodes and values *)

Module OPCODE.

Inductive t : Set :=
| EXIT | CHICKEN | ADD | SUB | MUL | CMP | LOAD | STORE | JMP | CHAR.

Definition value (o : t) : Z :=
  match o with
  | EXIT => 0 | CHICKEN => 1 | ADD => 2 | SUB => 3 | MUL => 4
  | CMP => 5 | LOAD => 6 | STORE => 7 | JMP => 8 | CHAR => 9
  end.

Definition name (o : t) : string :=
  match o with
  | EXIT => "EXIT" | CHICKEN => "CHICKEN" | ADD => "ADD" | SUB => "SUB"
  | MUL => "MUL" | CMP => "CMP" | LOAD => "LOAD" | STORE => "STORE"
  | JMP => "JMP" | CHAR => "CHAR"
  end%string.

(** [OPCODE(n)]: the member whose value is [n]; [None] stands for the
    [ValueError] of the enum. *)
Definition of_Z (n : Z) : option t :=
  match n with
  | 0 => Some EXIT | 1 => Some CHICKEN | 2 => Some ADD | 3 => Some SUB
  | 4 => Some MUL | 5 => Some CMP | 6 => Some LOAD | 7 => Some STORE
  | 8 => Some JMP | 9 => Some CHAR
  | _ => None
  end.

(** [__str__]: [OP.<name> (<value>)]. *)
Definition to_str (o : t) : pystr :=
  str "OP." ++ str (name o) ++ str " (" ++ str_of_Z (value o) ++ str ")".

End OPCODE.

(** What a slot of the stack can hold: the tokens of [Token], the booleans
    that CMP pushes, and the list's reference to itself. *)
Inductive value : Type :=
| VInt (z : Z)
| VBool (b : bool)
| VOp (o : OPCODE.t)
| VStr (s : pystr)
| VStack.

Inductive exn : Type :=
| IndexError
| TypeError
| ValueError
| OverflowError
| ParseError (message : pystr).

(** ** compiler.py *)

Definition chicken : pystr := str "chicken".

Section Compiler.

(** The order in which Python walks a set of strings depends on their
    hashes, which change from one process to the next. [set_iter] is that
    order: any enumeration of the set will do. *)
Variable set_iter : list pystr -> list pystr.
Hypothesis set_iter_perm : forall s, Permutation (set_iter s) s.

(** [set(words) - {"chicken", " "}], as a list without repetition. *)
Definition word_set (words : list pystr) : list pystr :=
  filter (fun w => negb (pystr_eqb w chicken || pystr_eqb w (str " ")))
         (nodup pystr_eq_dec words).

Definition parse_error_message (line_no : nat) (ws : list pystr) : pystr :=
  str "Invalid token(s) on line " ++ str_of_Z (Z.of_nat line_no)
    ++ str ": " ++ join (str " ") (set_iter ws).

(** The body of the [for] loop, from line [line_no] on; [tokens] are the
    tokens of the lines before. *)
Fixpoint compile_lines (line_no : nat) (lines : list pystr)
         (tokens : list value) : exn + list value :=
  match lines with
  | [] => inr tokens
  | line :: rest =>
      let words := split line in
      match word_set words with
      | [] =>
          let num_chickens := Z.of_nat (List.length (split line)) in
          if 9 <? num_chickens then
            compile_lines (S line_no) rest (tokens ++ [VInt num_chickens])
          else
            match OPCODE.of_Z num_chickens with
            | Some o => compile_lines (S line_no) rest (tokens ++ [VOp o])
            | None => inl ValueError
            end
      | ws => inl (ParseError (parse_error_message line_no ws))
      end
  end.

Definition compile (code : pystr) : exn + list value :=
  compile_lines 1 (splitlines code) [].

End Compiler.

(** ** vm.py: the operations of Python the machine relies on *)

(** The integer behind a value whose type is [int] or one of its subclasses
    ([bool], the [IntEnum] [OPCODE]). *)
Definition as_int (v : value) : option Z :=
  match v with
  | VInt z => Some z
  | VBool b => Some (if b then 1 else 0)
  | VOp o => Some (OPCODE.value o)
  | VStr _ | VStack => None
  end.

(** The position that index [i] denotes in a sequence of length [len]:
    negative indices count from the end; [None] is out of range. *)
Definition py_index (len : nat) (i : Z) : option nat :=
  if 0 <=? i then
    if i <? Z.of_nat len then Some (Z.to_nat i) else None
  else
    if - Z.of_nat len <=? i then Some (Z.to_nat (i + Z.of_nat len)) else None.

Definition out_of_range (len : nat) (i : Z) : Prop :=
  Z.of_nat len <= i \/ i < - Z.of_nat len.

(** [l[i]] on the list. *)
Definition list_getitem (l : list value) (i : value) : exn + value :=
  match as_int i with
  | None => inl TypeError
  | Some z =>
      match py_index (List.length l) z with
      | None => inl IndexError
      | Some n =>
          match nth_error l n with
          | Some v => inr v
          | None => inl IndexError
          end
      end
  end.

(** [s[i]] on a string: the string of the one character at [i]. *)
Definition str_getitem (s : pystr) (i : value) : exn + value :=
  match as_int i with
  | None => inl TypeError
  | Some z =>
      match py_index (List.length s) z with
      | None => inl IndexError
      | Some n =>
          match nth_error s n with
          | Some c => inr (VStr [c])
          | None => inl IndexError
          end
      end
  end.

Fixpoint replace_nth (n : nat) (v : value) (l : list value) : list value :=
  match l, n with
  | [], _ => []
  | _ :: rest, O => v :: rest
  | x :: rest, S n' => x :: replace_nth n' v rest
  end.

(** [l[i] = v] on the list: it never grows the list. *)
Definition list_setitem (l : list value) (i : value) (v : value)
  : exn + list value :=
  match as_int i with
  | None => inl TypeError
  | Some z =>
      match py_index (List.length l) z with
      | None => inl IndexError
      | Some n => inr (replace_nth n v l)
      end
  end.

(** [a == b]. [bool] and [OPCODE] compare as the integers they are; a string
    equals only a string; the list equals only itself. *)
Definition py_eq (a b : value) : bool :=
  match a, b with
  | VStr s, VStr t => pystr_eqb s t
  | VStack, VStack => true
  | _, _ =>
      match as_int a, as_int b with
      | Some x, Some y => x =? y
      | _, _ => false
      end
  end.

(** [a + b]. Two lists would make a new list, which [value] has no
    constructor for. *)
Inductive add_result : Type :=
| Sum (v : value)
| AddTypeError
| NewList.

Definition py_add (a b : value) : add_result :=
  match a, b with
  | VStr s, VStr t => Sum (VStr (s ++ t))
  | VStack, VStack => NewList
  | _, _ =>
      match as_int a, as_int b with
      | Some x, Some y => Sum (VInt (x + y))
      | _, _ => AddTypeError
      end
  end.

(** The text of [v] in an f-string, [f"{v}"]. [None]: the text of the list,
    which the embedding does not give. *)
Definition py_format (v : value) : option pystr :=
  match v with
  | VInt z => Some (str_of_Z z)
  | VBool true => Some (str "True")
  | VBool false => Some (str "False")
  | VOp o => Some (OPCODE.to_str o)
  | VStr s => Some s
  | VStack => None
  end.

(** [chr(v)]; the argument is read as a C [int] first. *)
Definition py_chr (v : value) : exn + value :=
  match as_int v with
  | None => inl TypeError
  | Some i =>
      if (i <? - 2147483648) || (2147483647 <? i) then inl OverflowError
      else if (i <? 0) || (1114111 <? i) then inl ValueError
      else inr (VStr [Z.to_N i])
  end.

(** [v - 10]. *)
Definition py_sub_10 (v : value) : exn + value :=
  match as_int v with
  | None => inl TypeError
  | Some z => inr (VInt (z - 10))
  end.

(** *** [int(s)] on a string *)

Definition Py_ISSPACE (c : N) : bool :=
  ((9 <=? c) && (c <=? 13) || (c =? 32))%N.

Definition digit_value (c : N) : option Z :=
  if ((48 <=? c) && (c <=? 57))%N then Some (Z.of_N c - 48) else None.

Fixpoint skip_space (s : pystr) : pystr :=
  match s with
  | c :: rest => if Py_ISSPACE c then skip_space rest else s
  | [] => []
  end.

(** The digits of a literal, one underscore allowed between two digits:
    the number read and what follows it. *)
Fixpoint scan_digits (acc : Z) (prev_underscore : bool) (s : pystr)
  : option (Z * pystr) :=
  match s with
  | c :: rest =>
      match digit_value c with
      | Some d => scan_digits (acc * 10 + d) false rest
      | None =>
          if (c =? 95)%N then
            if prev_underscore then None else scan_digits acc true rest
          else if prev_underscore then None else Some (acc, s)
      end
  | [] => if prev_underscore then None else Some (acc, [])
  end.

(** [PyLong_FromString] in base 10 on the whole of [s]: white space, a sign,
    digits, white space. *)
Definition PyLong_FromString (s : pystr) : option Z :=
  let s1 := skip_space s in
  let signed :=
    match s1 with
    | 43%N :: rest => (1, rest)
    | 45%N :: rest => (-1, rest)
    | _ => (1, s1)
    end in
  match snd signed with
  | c :: _ =>
      match digit_value c with
      | Some _ =>
          match scan_digits 0 false (snd signed) with
          | Some (n, rest) =>
              match skip_space rest with
              | [] => Some (fst signed * n)
              | _ => None
              end
          | None => None
          end
      | None => None
      end
  | [] => None
  end.

(** ** vm.py: the machine *)

Record Machine : Type := mkMachine {
  stack : list value;
  instruction_pointer : Z;
  _data_start : nat
}.

Definition set_stack (m : Machine) (l : list value) : Machine :=
  mkMachine l (instruction_pointer m) (_data_start m).

Definition set_instruction_pointer (m : Machine) (ip : Z) : Machine :=
  mkMachine (stack m) ip (_data_start m).

(** How a method call ends: it returns [a]; an exception [e] leaves it; or
    it needs a list other than the stack, or the text of the stack
    ([Unmodelled], only ADD with the stack's self-reference as an operand).
    Each carries the machine at that moment. *)
Inductive outcome (A : Type) : Type :=
| Ok (a : A) (m : Machine)
| Raise (e : exn) (m : Machine)
| Unmodelled (m : Machine).

Arguments Ok {A} a m.
Arguments Raise {A} e m.
Arguments Unmodelled {A} m.

Definition M (A : Type) : Type := Machine -> outcome A.

Definition ret {A} (a : A) : M A := fun m => Ok a m.

Definition bind {A B} (c : M A) (k : A -> M B) : M B :=
  fun m =>
    match c m with
    | Ok a m' => k a m'
    | Raise e m' => Raise e m'
    | Unmodelled m' => Unmodelled m'
    end.

Definition raise {A} (e : exn) : M A := fun m => Raise e m.

Definition unmodelled {A} : M A := fun m => Unmodelled m.

Definition lift {A} (r : exn + A) : M A :=
  match r with
  | inl e => raise e
  | inr a => ret a
  end.

Notation "x <- c ;; k" := (bind c (fun x => k))
  (at level 61, c at next level, right associativity).

Module Machine.

(** [__init__]. *)
Definition init (code : list value) (stdin : pystr) : Machine :=
  let stack := [VStack; VStr stdin] ++ code ++ [VOp OPCODE.EXIT] in
  mkMachine stack 2 (List.length stack).

(** The property [next_token]. *)
Definition next_token : M value :=
  fun m =>
    match list_getitem (stack m) (VInt (instruction_pointer m)) with
    | inl e => Raise e m
    | inr opcode =>
        Ok opcode (set_instruction_pointer m (instruction_pointer m + 1))
    end.

Definition pop : M value :=
  fun m =>
    match rev (stack m) with
    | [] => Raise IndexError m
    | top :: below => Ok top (set_stack m (rev below))
    end.

Definition push (v : value) : M unit :=
  fun m => Ok tt (set_stack m (stack m ++ [v])).

Definition peek : M value :=
  fun m => lift (list_getitem (stack m) (VInt (-1))) m.

(** The property [data_stack]: the slice [self.stack[self._data_start:]]. *)
Definition data_stack (m : Machine) : list value :=
  skipn (_data_start m) (stack m).

(** [self.stack[i]]. *)
Definition stack_getitem (i : value) : M value :=
  fun m => lift (list_getitem (stack m) i) m.

(** [self.stack[i] = v]. *)
Definition stack_setitem (i v : value) : M unit :=
  fun m =>
    match list_setitem (stack m) i v with
    | inl e => Raise e m
    | inr l => Ok tt (set_stack m l)
    end.

(** [source[i]], where [source] came off the stack. *)
Definition getitem (source i : value) : M value :=
  match source with
  | VStack => stack_getitem i
  | VStr s => lift (str_getitem s i)
  | VInt _ | VBool _ | VOp _ => raise TypeError
  end.

(** The truth of [v] in [if v:]; the list is true while it has elements. *)
Definition truth (v : value) : M bool :=
  fun m =>
    match v with
    | VInt z => Ok (negb (z =? 0)) m
    | VBool b => Ok b m
    | VOp o => Ok (negb (OPCODE.value o =? 0)) m
    | VStr s => Ok (match s with [] => false | _ => true end) m
    | VStack => Ok (match stack m with [] => false | _ => true end) m
    end.

(** [self.instruction_pointer += v]. *)
Definition add_to_instruction_pointer (v : value) : M unit :=
  fun m =>
    match as_int v with
    | None => Raise TypeError m
    | Some k =>
        Ok tt (set_instruction_pointer m (instruction_pointer m + k))
    end.

(** The [try: a + b / except TypeError: f"{a}{b}"] of ADD. *)
Definition add_or_concat (a b : value) : M value :=
  match py_add a b with
  | Sum v => ret v
  | NewList => unmodelled
  | AddTypeError =>
      match py_format a, py_format b with
      | Some s, Some t => ret (VStr (s ++ t))
      | _, _ => unmodelled
      end
  end.

Section Dispatch.

(** The decimal digit that a code point above ASCII stands for in the
    interpreter's Unicode database, if it is one. The database changes
    with the interpreter, so it is left open. *)
Variable Py_UNICODE_TODECIMAL : N -> option N.

(** What [int(s)] makes of one character before it reads the number. *)
Definition to_ascii (c : N) : option N :=
  if (c <? 128)%N then Some c
  else if Py_UNICODE_ISSPACE c then Some 32%N
  else option_map (fun d => (48 + d)%N) (Py_UNICODE_TODECIMAL c).

Fixpoint transform_decimal_and_space (s : pystr) : option pystr :=
  match s with
  | [] => Some []
  | c :: rest =>
      match to_ascii c, transform_decimal_and_space rest with
      | Some a, Some rest' => Some (a :: rest')
      | _, _ => None
      end
  end.

(** [int(s)] for a string [s]; [None] is its [ValueError]. *)
Definition int_of_str (s : pystr) : option Z :=
  match transform_decimal_and_space s with
  | Some ascii => PyLong_FromString ascii
  | None => None
  end.

(** [int(v)]. *)
Definition py_int (v : value) : exn + Z :=
  match v with
  | VStr s =>
      match int_of_str s with
      | Some z => inr z
      | None => inl ValueError
      end
  | VStack => inl TypeError
  | VInt _ | VBool _ | VOp _ =>
      match as_int v with
      | Some z => inr z
      | None => inl TypeError
      end
  end.

Definition dispatch (op : value) : M unit :=
  match op with
  | VOp OPCODE.CHICKEN => push (VStr chicken)
  | VOp OPCODE.ADD =>
      operand_2 <- pop ;;
      operand_1 <- pop ;;
      result <- add_or_concat operand_1 operand_2 ;;
      push result
  | VOp OPCODE.SUB =>
      operand_2 <- pop ;;
      operand_1 <- pop ;;
      x <- lift (py_int operand_1) ;;
      y <- lift (py_int operand_2) ;;
      push (VInt (x - y))
  | VOp OPCODE.MUL =>
      operand_2 <- pop ;;
      operand_1 <- pop ;;
      x <- lift (py_int operand_2) ;;
      y <- lift (py_int operand_1) ;;
      push (VInt (x * y))
  | VOp OPCODE.CMP =>
      operand_2 <- pop ;;
      operand_1 <- pop ;;
      push (VBool (py_eq operand_2 operand_1))
  | VOp OPCODE.LOAD =>
      load_from <- next_token ;;
      source <- stack_getitem load_from ;;
      load_index <- pop ;;
      load <- (fun m =>
                 match getitem source load_index m with
                 | Raise IndexError m' => Ok (VStr []) m'
                 | r => r
                 end) ;;
      push load
  | VOp OPCODE.STORE =>
      address <- pop ;;
      load <- pop ;;
      stack_setitem address load
  | VOp OPCODE.JMP =>
      rel_offset <- pop ;;
      cond <- pop ;;
      taken <- truth cond ;;
      if taken then add_to_instruction_pointer rel_offset else ret tt
  | VOp OPCODE.CHAR =>
      token <- pop ;;
      char <- lift (py_chr token) ;;
      push char
  | VOp OPCODE.EXIT | VInt _ | VBool _ | VStr _ | VStack =>
      token <- lift (py_sub_10 op) ;;
      push token
  end.

(** One turn of the loop of [run] past its EXIT test:
    [self.dispatch(self.next_token)]. *)
Definition step : M unit :=
  op <- next_token ;;
  dispatch op.

Definition is_EXIT (v : value) : bool :=
  match v with
  | VOp OPCODE.EXIT => true
  | _ => false
  end.

(** [run]; [fuel] bounds the number of turns of the [while] loop, and
    [None] says the bound was reached. *)
Fixpoint run (fuel : nat) (m : Machine) : option (outcome value) :=
  match fuel with
  | O => None
  | S fuel' =>
      if instruction_pointer m <=? Z.of_nat (List.length (stack m)) then
        match list_getitem (stack m) (VInt (instruction_pointer m)) with
        | inl e => Some (Raise e m)
        | inr token =>
            if is_EXIT token then Some (peek m)
            else
              match step m with
              | Ok _ m' => run fuel' m'
              | Raise e m' => Some (Raise e m')
              | Unmodelled m' => Some (Unmodelled m')
              end
        end
      else Some (peek m)
  end.

End Dispatch.

End Machine.

(** ** __main__.py: [interpret] *)

Definition EXIT_FAILURE : Z := 1.
Definition EXIT_SUCCESS : Z := 0.

(** One call of [click.echo]: the text handed to it and the stream it goes
    to ([err=True] is the error stream). The newline that [click.echo] adds
    is not part of the text. *)
Inductive echo : Type :=
| Stdout (text : pystr)
| Stderr (text : pystr).

(** How a call of [interpret] ends: it returns a status after one echo; an
    exception leaves it, as it catches [ParseError] alone; or the machine
    went where the embedding does not follow. *)
Inductive interpreted : Type :=
| Returned (out : echo) (status : Z)
| Uncaught (e : exn)
| NotModelled.

Section Main.

Variable set_iter : list pystr -> list pystr.
Variable Py_UNICODE_TODECIMAL : N -> option N.

(** [interpret(source_code, input)], with [input] a string, as [main]
    passes it; [fuel] bounds the loop of [run], and [None] says the bound
    was reached. The echoed result is [str(result)], which for the values
    at hand is their text in an f-string. *)
Definition interpret (fuel : nat) (source_code input : pystr)
  : option interpreted :=
  match compile set_iter source_code with
  | inl (ParseError message) =>
      Some (Returned (Stderr (str "ERROR: " ++ message)) EXIT_FAILURE)
  | inl e => Some (Uncaught e)
  | inr code =>
      match Machine.run Py_UNICODE_TODECIMAL fuel (Machine.init code input)
      with
      | None => None
      | Some (Ok result _) =>
          match py_format result with
          | Some text => Some (Returned (Stdout text) EXIT_SUCCESS)
          | None => Some NotModelled
          end
      | Some (Raise e _) => Some (Uncaught e)
      | Some (Unmodelled _) => Some NotModelled
      end
  end.

End Main.

(** * The vocabulary of the statements *)




(** The characters a string that [int] accepts is made of. *)
Definition numeric_char (c : N) : bool :=
  (Py_ISSPACE c || (48 <=? c) && (c <=? 57)
   || (c =? 43) || (c =? 45) || (c =? 95))%N.

(** The token [compile] appends for a line of keywords. *)
Definition emits (line : pystr) (token : value) : Prop :=
  let n := Z.of_nat (List.length (split line)) in
  (9 < n /\ token = VInt n) \/
  (n <= 9 /\ exists o, OPCODE.of_Z n = Some o /\ OPCODE.value o = n /\
                       token = VOp o).





(** The opcodes that pop two operands before anything else. *)
Definition pops_two (o : OPCODE.t) : Prop :=
  o = OPCODE.ADD \/ o = OPCODE.SUB \/ o = OPCODE.MUL \/ o = OPCODE.CMP \/
  o = OPCODE.STORE \/ o = OPCODE.JMP.

(** By how much a token that runs to its end changes the length of the
    stack. *)
Definition stack_effect (op : value) : Z :=
  match op with
  | VOp OPCODE.CHICKEN => 1
  | VOp OPCODE.ADD | VOp OPCODE.SUB | VOp OPCODE.MUL | VOp OPCODE.CMP => -1
  | VOp OPCODE.LOAD | VOp OPCODE.CHAR => 0
  | VOp OPCODE.STORE | VOp OPCODE.JMP => -2
  | VOp OPCODE.EXIT | VInt _ | VBool _ | VStr _ | VStack => 1
  end.

(** The machine an outcome carries. *)
Definition machine_of {A} (r : outcome A) : Machine :=
  match r with
  | Ok _ m => m
  | Raise _ m => m
  | Unmodelled m => m
  end.

(** An outcome [r] of a token on [m] that keeps [_data_start], changes the
    length of the stack by [d] if it is a return, and does not make the
    stack longer if it is an exception. *)
Definition keeps_effect (m : Machine) (d : Z) (r : outcome unit) : Prop :=
  _data_start (machine_of r) = _data_start m /\
  (forall m', r = Ok tt m' ->
              Z.of_nat (List.length (stack m'))
              = Z.of_nat (List.length (stack m)) + d) /\
  (forall e m', r = Raise e m' ->
                (List.length (stack m') <= List.length (stack m))%nat).


(** A line of [n] keywords with one space between them. *)
Definition keyword_line (n : nat) : pystr :=
  join (str " ") (repeat chicken n).

(** The token for a line of [n] words, [n] from 0 to 9 or above. *)
Definition count_token (n : nat) : value :=
  match OPCODE.of_Z (Z.of_nat n) with
  | Some o => VOp o
  | None => VInt (Z.of_nat n)
  end.

(** The source text that spells the word counts [ns]: for each count a line
    of that many keywords, closed by a line feed. *)
Definition program_text (ns : list nat) : pystr :=
  List.concat (map (fun n => keyword_line n ++ [10%N]) ns).

(** A line all of whose words are the keyword. *)
Definition keyword_only (line : pystr) : Prop :=
  Forall (eq chicken) (split line).

(** ** Sample inputs *)

(** A Unicode database without decimal digits above ASCII. *)
Definition ascii_digits_only : N -> option N := fun _ => None.

(** A set that yields its elements in the order of the list that stands
    for it. *)
Definition as_listed : list pystr -> list pystr := fun s => s.

(** Three lines: one word, none, two words. *)
Definition three_keyword_lines : pystr :=
  chicken ++ [10%N] ++ [10%N] ++ chicken ++ [32%N] ++ chicken.

(** Two lines of eight words each: JMP, JMP. *)
Definition two_lines_of_eight : pystr :=
  join [10%N] (repeat (join (str " ") (repeat chicken 8)) 2).

(** One line of eleven words. *)
Definition eleven_keywords : pystr :=
  join (str " ") (repeat chicken 11).

(** Two lines; the second holds [foo] twice and [bar]. *)
Definition keyword_then_foo_bar : pystr :=
  chicken ++ [10%N] ++ str "foo chicken bar foo".

(** * Properties *)

(** ** Indexing *)

Lemma py_index_None (len : nat) (i : Z) :
  py_index len i = None <-> out_of_range len i.
Proof.
  unfold py_index, out_of_range.
  destruct (Z.leb_spec 0 i).
  - destruct (Z.ltb_spec i (Z.of_nat len)); split;
      try discriminate; try reflexivity; lia.
  - destruct (Z.leb_spec (- Z.of_nat len) i); split;
      try discriminate; try reflexivity; lia.
Qed.

Lemma py_index_Some_lt (len : nat) (i : Z) (n : nat) :
  py_index len i = Some n -> i < Z.of_nat len /\ (n < len)%nat.
Proof.
  unfold py_index.
  destruct (Z.leb_spec 0 i).
  - destruct (Z.ltb_spec i (Z.of_nat len)); [|discriminate].
    intros [= <-]. lia.
  - destruct (Z.leb_spec (- Z.of_nat len) i); [|discriminate].
    intros [= <-]. lia.
Qed.

Lemma list_getitem_lt (l : list value) (i : Z) (v : value) :
  list_getitem l (VInt i) = inr v -> i < Z.of_nat (List.length l).
Proof.
  unfold list_getitem; simpl.
  destruct (py_index (List.length l) i) as [n|] eqn:E; [|discriminate].
  intros _. apply py_index_Some_lt in E. tauto.
Qed.

Lemma list_getitem_out_of_range (l : list value) (i : value) (z : Z) :
  as_int i = Some z -> out_of_range (List.length l) z ->
  list_getitem l i = inl IndexError.
Proof.
  intros Hi Hz. unfold list_getitem. rewrite Hi.
  apply py_index_None in Hz. now rewrite Hz.
Qed.


Lemma list_getitem_last (l : list value) (v : value) :
  list_getitem (l ++ [v]) (VInt (-1)) = inr v.
Proof.
  unfold list_getitem, py_index; simpl as_int; cbv iota.
  rewrite length_app; simpl List.length.
  replace (0 <=? -1) with false by reflexivity.
  destruct (Z.leb_spec (- Z.of_nat (List.length l + 1)) (-1)); [|lia].
  replace (Z.to_nat (-1 + Z.of_nat (List.length l + 1))) with (List.length l)
    by lia.
  rewrite nth_error_app2 by lia.
  now rewrite Nat.sub_diag.
Qed.

(** ** The stack primitives *)

Lemma pop_last (m : Machine) (rest : list value) (v : value) :
  stack m = rest ++ [v] -> Machine.pop m = Ok v (set_stack m rest).
Proof.
  intros H. unfold Machine.pop. rewrite H, rev_app_distr. simpl.
  now rewrite rev_involutive.
Qed.

Lemma pop_pop {A} (m : Machine) (rest : list value) (a b : value)
      (k : value -> value -> M A) :
  stack m = rest ++ [a; b] ->
  (x <- Machine.pop ;; y <- Machine.pop ;; k x y) m = k b a (set_stack m rest).
Proof.
  intros H. unfold bind.
  rewrite (pop_last m (rest ++ [a]) b)
    by (rewrite H, <- app_assoc; reflexivity).
  rewrite (pop_last (set_stack m (rest ++ [a])) rest a) by reflexivity.
  reflexivity.
Qed.

Lemma peek_last (m : Machine) (rest : list value) (v : value) :
  stack m = rest ++ [v] -> Machine.peek m = Ok v m.
Proof.
  intros H. unfold Machine.peek. rewrite H, list_getitem_last. reflexivity.
Qed.

Lemma next_token_at (m : Machine) (v : value) :
  list_getitem (stack m) (VInt (instruction_pointer m)) = inr v ->
  Machine.next_token m
  = Ok v (set_instruction_pointer m (instruction_pointer m + 1)).
Proof.
  intros H. unfold Machine.next_token. now rewrite H.
Qed.

Section MachineProperties.

Variable Py_UNICODE_TODECIMAL : N -> option N.

Local Abbreviation dispatch := (Machine.dispatch Py_UNICODE_TODECIMAL).
Local Abbreviation step := (Machine.step Py_UNICODE_TODECIMAL).
Local Abbreviation run := (Machine.run Py_UNICODE_TODECIMAL).
Local Abbreviation int_of_str := (Machine.int_of_str Py_UNICODE_TODECIMAL).

(** ** The loop of [run] *)

(** With EXIT under the instruction pointer, [run] stops at once and
    returns the top of the stack; the machine is as it was. *)
Lemma run_EXIT (fuel : nat) (m : Machine) :
  list_getitem (stack m) (VInt (instruction_pointer m))
  = inr (VOp OPCODE.EXIT) ->
  exists rest top,
    stack m = rest ++ [top] /\ run (S fuel) m = Some (Ok top m).
Proof.
  intros H. pose proof (list_getitem_lt _ _ _ H) as Hlt.
  destruct (exists_last (l := stack m)) as (rest & top & E).
  { intros E. rewrite E in H.
    rewrite (list_getitem_out_of_range [] _ (instruction_pointer m)) in H;
      [discriminate | reflexivity | unfold out_of_range; simpl; lia]. }
  exists rest, top. split; [exact E|].
  simpl. rewrite H. simpl.
  destruct (Z.leb_spec (instruction_pointer m)
                       (Z.of_nat (List.length (stack m)))); [|lia].
  now rewrite (peek_last m rest top E).
Qed.

(** With the instruction pointer beyond the length of a stack that is not
    empty, [run] stops at once and returns the top of the stack. *)
Lemma run_beyond_length (fuel : nat) (m : Machine) (rest : list value)
      (top : value) :
  stack m = rest ++ [top] ->
  Z.of_nat (List.length (stack m)) < instruction_pointer m ->
  run (S fuel) m = Some (Ok top m).
Proof.
  intros E Hgt. simpl.
  destruct (Z.leb_spec (instruction_pointer m)
                       (Z.of_nat (List.length (stack m)))); [lia|].
  now rewrite (peek_last m rest top E).
Qed.

(** With the instruction pointer equal to the length of the stack, the
    loop test [<=] lets the turn begin and the read [self.stack[ip]]
    raises. *)
Lemma run_at_length (fuel : nat) (m : Machine) :
  instruction_pointer m = Z.of_nat (List.length (stack m)) ->
  run (S fuel) m = Some (Raise IndexError m).
Proof.
  intros E. simpl. rewrite E, Z.leb_refl.
  rewrite (list_getitem_out_of_range _ _ (Z.of_nat (List.length (stack m))));
    [reflexivity | reflexivity | left; lia].
Qed.

(** A turn of the loop that ends well hands the machine to the next
    turn. *)
Lemma run_turn (fuel : nat) (m m' : Machine) (op : value) :
  list_getitem (stack m) (VInt (instruction_pointer m)) = inr op ->
  Machine.is_EXIT op = false ->
  step m = Ok tt m' ->
  run (S fuel) m = run fuel m'.
Proof.
  intros Hat Hop Hstep.
  pose proof (list_getitem_lt _ _ _ Hat) as Hlt.
  simpl.
  destruct (Z.leb_spec (instruction_pointer m)
                       (Z.of_nat (List.length (stack m)))); [|lia].
  now rewrite Hat, Hop, Hstep.
Qed.

(** An exception that leaves a turn of the loop leaves [run]: nothing in
    [run] catches it. *)
Lemma run_step_raises (fuel : nat) (m m' : Machine) (op : value) (e : exn) :
  list_getitem (stack m) (VInt (instruction_pointer m)) = inr op ->
  Machine.is_EXIT op = false ->
  step m = Raise e m' ->
  run (S fuel) m = Some (Raise e m').
Proof.
  intros Hat Hop Hstep.
  pose proof (list_getitem_lt _ _ _ Hat) as Hlt.
  simpl.
  destruct (Z.leb_spec (instruction_pointer m)
                       (Z.of_nat (List.length (stack m)))); [|lia].
  now rewrite Hat, Hop, Hstep.
Qed.

(** C1, at the program of two lines of eight words (JMP, JMP) with empty
    input. The first JMP pops the EXIT sentinel as its offset (0) and the
    second JMP as its condition (8, true); the stack is then three long and
    the instruction pointer is 3, its length. The claim has [run] return
    the top of the stack there; [run] raises [IndexError]. *)
Theorem run_JMP_JMP_raises_IndexError (fuel : nat) :
  (forall set_iter,
      compile set_iter two_lines_of_eight
      = inr [VOp OPCODE.JMP; VOp OPCODE.JMP]) /\
  run (S (S fuel)) (Machine.init [VOp OPCODE.JMP; VOp OPCODE.JMP] [])
  = Some (Raise IndexError
            (mkMachine [VStack; VStr []; VOp OPCODE.JMP] 3 5)).
Proof.
  split.
  - intros set_iter. reflexivity.
  - rewrite (run_turn _ _ (mkMachine [VStack; VStr []; VOp OPCODE.JMP] 3 5)
                      (VOp OPCODE.JMP)) by reflexivity.
    now apply run_at_length.
Qed.

(** ** CMP *)



(** ** STORE *)


(** ** LOAD *)


(** An index below zero that is in range reads from the end: it is not
    out of range. *)
Example LOAD_index_minus_1 :
  dispatch (VOp OPCODE.LOAD)
    (mkMachine [VStack; VStr (str "abc"); VOp OPCODE.LOAD; VOp OPCODE.CHICKEN;
                VOp OPCODE.EXIT; VInt (-1)] 3 5)
  = Ok tt
      (mkMachine [VStack; VStr (str "abc"); VOp OPCODE.LOAD;
                  VOp OPCODE.CHICKEN; VOp OPCODE.EXIT; VStr (str "c")] 4 5).
Proof. reflexivity. Qed.

(** ** ADD *)


Example ADD_3_4 :
  dispatch (VOp OPCODE.ADD) (mkMachine [VStack; VStr []; VInt 3; VInt 4] 2 2)
  = Ok tt (mkMachine [VStack; VStr []; VInt 7] 2 2).
Proof. reflexivity. Qed.

Example ADD_3_x :
  dispatch (VOp OPCODE.ADD)
    (mkMachine [VStack; VStr []; VInt 3; VStr (str "x")] 2 2)
  = Ok tt (mkMachine [VStack; VStr []; VStr (str "3x")] 2 2).
Proof. reflexivity. Qed.

(** ** JMP *)



(** ** SUB and MUL *)

Lemma py_int_error (v : value) (e : exn) :
  Machine.py_int Py_UNICODE_TODECIMAL v = inl e ->
  e = ValueError \/ e = TypeError.
Proof.
  destruct v as [z | b | o | s |]; simpl; try discriminate.
  - destruct (int_of_str s); [discriminate|]. intros [= <-]. now left.
  - intros [= <-]. now right.
Qed.

Lemma py_int_non_numeric (s : pystr) :
  int_of_str s = None ->
  Machine.py_int Py_UNICODE_TODECIMAL (VStr s) = inl ValueError.
Proof.
  intros H. simpl. now rewrite H.
Qed.

Lemma skip_space_chars (s : pystr) :
  exists pre, s = pre ++ skip_space s /\
              Forall (fun c => numeric_char c = true) pre.
Proof.
  induction s as [|c s IH]; simpl.
  - exists []. split; [reflexivity | constructor].
  - destruct (Py_ISSPACE c) eqn:E.
    + destruct IH as (pre & Hs & Hpre). exists (c :: pre). split.
      * simpl. now rewrite <- Hs.
      * constructor; [|exact Hpre]. unfold numeric_char. now rewrite E.
    + exists []. split; [reflexivity | constructor].
Qed.

Lemma skip_space_nil_chars (s : pystr) :
  skip_space s = [] -> Forall (fun c => numeric_char c = true) s.
Proof.
  intros H. destruct (skip_space_chars s) as (pre & Hs & Hpre).
  rewrite H, app_nil_r in Hs. now subst.
Qed.

Lemma digit_value_char (c : N) (d : Z) :
  digit_value c = Some d -> numeric_char c = true.
Proof.
  unfold digit_value, numeric_char.
  destruct ((48 <=? c) && (c <=? 57))%N; [|discriminate].
  intros _. now rewrite orb_true_r.
Qed.

Lemma scan_digits_chars (s : pystr) :
  forall acc prev n rest,
    scan_digits acc prev s = Some (n, rest) ->
    exists pre, s = pre ++ rest /\
                Forall (fun c => numeric_char c = true) pre.
Proof.
  induction s as [|c s IH]; intros acc prev n rest; simpl.
  - destruct prev; [discriminate|]. intros [= <- <-].
    exists []. split; [reflexivity | constructor].
  - destruct (digit_value c) as [d|] eqn:Ed.
    + intros H. destruct (IH _ _ _ _ H) as (pre & -> & Hpre).
      exists (c :: pre). split; [reflexivity|].
      constructor; [now apply digit_value_char with d | exact Hpre].
    + destruct (N.eqb_spec c 95) as [-> | Hne].
      * destruct prev; [discriminate|].
        intros H. destruct (IH _ _ _ _ H) as (pre & -> & Hpre).
        exists (95%N :: pre). split; [reflexivity|].
        constructor; [reflexivity | exact Hpre].
      * destruct prev; [discriminate|]. intros [= <- <-].
        exists []. split; [reflexivity | constructor].
Qed.

Lemma PyLong_FromString_chars (s : pystr) (z : Z) :
  PyLong_FromString s = Some z ->
  Forall (fun c => numeric_char c = true) s.
Proof.
  unfold PyLong_FromString.
  destruct (skip_space_chars s) as (pre & Hs & Hpre).
  set (s1 := skip_space s) in *.
  set (signed := match s1 with
                 | 43%N :: rest => (1, rest)
                 | 45%N :: rest => (-1, rest)
                 | _ => (1, s1)
                 end).
  assert (Hsign : exists sg, s1 = sg ++ snd signed /\
                             Forall (fun c => numeric_char c = true) sg).
  { subst signed. destruct s1 as [|c r].
    - exists []. split; [reflexivity | constructor].
    - destruct (N.eq_dec c 43) as [-> | H43].
      + exists [43%N]. split; [reflexivity | repeat constructor].
      + destruct (N.eq_dec c 45) as [-> | H45].
        * exists [45%N]. split; [reflexivity | repeat constructor].
        * exists []. split; [|constructor].
          destruct c as [|p]; [reflexivity|].
          do 6 (destruct p as [p | p |]; try reflexivity); congruence. }
  destruct Hsign as (sg & Hsg & Hsgc).
  destruct (snd signed) as [|c r] eqn:E2; [discriminate|].
  destruct (digit_value c); [|discriminate].
  destruct (scan_digits 0 false (c :: r)) as [[n rest]|] eqn:Esc;
    [|discriminate].
  destruct (skip_space rest) eqn:Esp; [|discriminate].
  intros _.
  destruct (scan_digits_chars _ _ _ _ _ Esc) as (ds & Hds & Hdsc).
  rewrite Hs, Hsg, Hds.
  repeat (apply Forall_app; split); try assumption.
  now apply skip_space_nil_chars.
Qed.

Lemma transform_keeps_ascii (s ascii : pystr) (c : N) :
  Machine.transform_decimal_and_space Py_UNICODE_TODECIMAL s = Some ascii ->
  In c s -> (c < 128)%N -> In c ascii.
Proof.
  revert ascii. induction s as [|x s IH]; intros ascii; simpl; [tauto|].
  destruct (Machine.to_ascii Py_UNICODE_TODECIMAL x) as [a|] eqn:Ea;
    [|discriminate].
  destruct (Machine.transform_decimal_and_space Py_UNICODE_TODECIMAL s)
    as [rest'|]; [|discriminate].
  intros [= <-] [-> | Hin] Hc.
  - left. unfold Machine.to_ascii in Ea.
    destruct (N.ltb_spec c 128); [congruence | lia].
  - right. now apply IH.
Qed.

(** A string with an ASCII character that is no digit, sign, underscore or
    white space is not a number for [int], whatever else it holds. *)
Lemma int_of_str_non_numeric_char (s : pystr) (c : N) :
  In c s -> (c < 128)%N -> numeric_char c = false -> int_of_str s = None.
Proof.
  intros Hin Hc Hnum. unfold Machine.int_of_str.
  destruct (Machine.transform_decimal_and_space Py_UNICODE_TODECIMAL s)
    as [ascii|] eqn:Et; [|reflexivity].
  destruct (PyLong_FromString ascii) as [z|] eqn:Ez; [|reflexivity].
  apply PyLong_FromString_chars in Ez.
  rewrite Forall_forall in Ez.
  specialize (Ez c (transform_keeps_ascii s ascii c Et Hin Hc)). congruence.
Qed.

(** C8. A turn of the loop on SUB or MUL with a popped operand that is a
    string [int] does not accept: the conversion raises, nothing is pushed,
    and the exception leaves [run]. It is [ValueError], or [TypeError] when
    the operand converted first is the list. *)
Theorem SUB_MUL_non_numeric_string_raises (fuel : nat) (m : Machine)
        (op : OPCODE.t) (rest : list value) (a b : value) (s : pystr) :
  op = OPCODE.SUB \/ op = OPCODE.MUL ->
  list_getitem (stack m) (VInt (instruction_pointer m)) = inr (VOp op) ->
  stack m = rest ++ [a; b] ->
  a = VStr s \/ b = VStr s ->
  int_of_str s = None ->
  exists e,
    (e = ValueError \/ e = TypeError) /\
    step m = Raise e (mkMachine rest (instruction_pointer m + 1)
                                (_data_start m)) /\
    run (S fuel) m
    = Some (Raise e (mkMachine rest (instruction_pointer m + 1)
                               (_data_start m))).
Proof.
  intros Hop Hat Hs Hstr Hbad.
  assert (Hstep : exists e,
             (e = ValueError \/ e = TypeError) /\
             step m = Raise e (mkMachine rest (instruction_pointer m + 1)
                                         (_data_start m))).
  { unfold Machine.step, bind at 1. rewrite (next_token_at m _ Hat).
    pose proof (py_int_non_numeric s Hbad) as Hs_err.
    destruct Hop as [-> | ->]; unfold Machine.dispatch;
      rewrite (pop_pop _ rest a b _) by exact Hs; unfold bind.
    - destruct (Machine.py_int Py_UNICODE_TODECIMAL a) as [e | x] eqn:Ea.
      + exists e. split; [now apply py_int_error with a | reflexivity].
      + destruct Hstr as [-> | ->]; [congruence|].
        rewrite Hs_err. exists ValueError. split; [now left | reflexivity].
    - destruct (Machine.py_int Py_UNICODE_TODECIMAL b) as [e | x] eqn:Eb.
      + exists e. split; [now apply py_int_error with b | reflexivity].
      + destruct Hstr as [-> | ->]; [|congruence].
        rewrite Hs_err. exists ValueError. split; [now left | reflexivity]. }
  destruct Hstep as (e & He & Hstep). exists e.
  split; [exact He|]. split; [exact Hstep|].
  apply run_step_raises with (VOp op); try assumption.
  destruct Hop as [-> | ->]; reflexivity.
Qed.

(** ** Literals *)

(** A token that is an integer is pushed less ten. *)
Lemma dispatch_literal (m : Machine) (n : Z) :
  dispatch (VInt n) m = Ok tt (set_stack m (stack m ++ [VInt (n - 10)])).
Proof.
  reflexivity.
Qed.

End MachineProperties.

(** ** The words of a line *)

Lemma split_from_words (s : pystr) :
  forall cur w,
    Forall (fun c => Py_UNICODE_ISSPACE c = false) cur ->
    In w (split_from cur s) ->
    w <> [] /\ Forall (fun c => Py_UNICODE_ISSPACE c = false) w.
Proof.
  assert (Hrev : forall cur : pystr,
             cur <> [] ->
             Forall (fun c => Py_UNICODE_ISSPACE c = false) cur ->
             rev cur <> [] /\
             Forall (fun c => Py_UNICODE_ISSPACE c = false) (rev cur)).
  { intros cur Hne Hcur. split.
    - intros E. apply Hne. rewrite <- (rev_involutive cur), E. reflexivity.
    - now apply Forall_rev. }
  induction s as [|c s IH]; intros cur w Hcur; simpl.
  - destruct cur as [|x cur]; [intros []|].
    intros [<- | []]. now apply Hrev.
  - destruct (Py_UNICODE_ISSPACE c) eqn:E.
    + destruct cur as [|x cur].
      * now apply IH.
      * intros [<- | Hin]; [now apply Hrev | now apply (IH [])].
    + apply IH. now constructor.
Qed.

Lemma split_word_not_space (line w : pystr) :
  In w (split line) -> w <> str " ".
Proof.
  intros Hin ->.
  destruct (split_from_words line [] _ (Forall_nil _) Hin) as [_ H].
  inversion H; discriminate.
Qed.

Lemma pystr_eqb_eq (a b : pystr) : pystr_eqb a b = true <-> a = b.
Proof.
  unfold pystr_eqb. destruct (pystr_eq_dec a b); split; congruence.
Qed.

Lemma word_set_In (words : list pystr) (w : pystr) :
  In w (word_set words) <-> In w words /\ w <> chicken /\ w <> str " ".
Proof.
  unfold word_set. rewrite filter_In, nodup_In, negb_true_iff, orb_false_iff.
  split.
  - intros (Hin & Hc & Hsp). repeat split; [exact Hin | |];
      intros E; apply pystr_eqb_eq in E; congruence.
  - intros (Hin & Hc & Hsp). repeat split; [exact Hin | |].
    + destruct (pystr_eqb w chicken) eqn:E; [|reflexivity].
      apply pystr_eqb_eq in E. contradiction.
    + destruct (pystr_eqb w (str " ")) eqn:E; [|reflexivity].
      apply pystr_eqb_eq in E. contradiction.
Qed.

Lemma word_set_NoDup (words : list pystr) : NoDup (word_set words).
Proof.
  unfold word_set. apply NoDup_filter, NoDup_nodup.
Qed.

(** The test of [compile] lets a line through exactly when each of its
    words is the keyword. *)
Lemma word_set_nil (line : pystr) :
  word_set (split line) = [] <-> Forall (eq chicken) (split line).
Proof.
  split.
  - intros E. rewrite Forall_forall. intros w Hin.
    destruct (pystr_eq_dec w chicken) as [-> | Hne]; [reflexivity|].
    exfalso. assert (H : In w (word_set (split line))).
    { apply word_set_In. repeat split; try assumption.
      now apply split_word_not_space with line. }
    now rewrite E in H.
  - intros H. rewrite Forall_forall in H.
    destruct (word_set (split line)) as [|w ws] eqn:E; [reflexivity|].
    exfalso. assert (Hin : In w (word_set (split line)))
      by (rewrite E; now left).
    apply word_set_In in Hin. destruct Hin as (Hin & Hne & _).
    apply Hne. symmetry. now apply H.
Qed.

Lemma OPCODE_of_Z_digit (k : nat) :
  (k <= 9)%nat ->
  exists o, OPCODE.of_Z (Z.of_nat k) = Some o /\
            OPCODE.value o = Z.of_nat k.
Proof.
  intros H.
  do 10 (destruct k as [|k]; [eexists; split; reflexivity|]).
  lia.
Qed.

Lemma Forall2_nth_error {A B} (R : A -> B -> Prop) (l : list A)
      (l' : list B) :
  Forall2 R l l' ->
  forall i x, nth_error l i = Some x ->
              exists y, nth_error l' i = Some y /\ R x y.
Proof.
  induction 1 as [|x0 y0 l l' HR _ IH]; intros i x.
  - destruct i; discriminate.
  - destruct i as [|i]; simpl.
    + intros [= <-]. now exists y0.
    + apply IH.
Qed.

Section CompilerProperties.

Variable set_iter : list pystr -> list pystr.
Hypothesis set_iter_perm : forall s, Permutation (set_iter s) s.

Local Abbreviation compile_lines := (compile_lines set_iter).
Local Abbreviation compile := (compile set_iter).

Lemma compile_lines_keywords (line_no : nat) (line : pystr)
      (rest : list pystr) (tokens : list value) :
  word_set (split line) = [] ->
  exists token,
    emits line token /\
    compile_lines line_no (line :: rest) tokens
    = compile_lines (S line_no) rest (tokens ++ [token]).
Proof.
  intros E. simpl. rewrite E. unfold emits.
  destruct (Z.ltb_spec 9 (Z.of_nat (List.length (split line)))) as [Hgt | Hle].
  - eexists. split; [left; split; [exact Hgt | reflexivity] | reflexivity].
  - destruct (OPCODE_of_Z_digit (List.length (split line)))
      as (o & Ho & Hv); [lia|].
    rewrite Ho. exists (VOp o). split; [|reflexivity].
    right. split; [exact Hle|]. now exists o.
Qed.

Lemma compile_lines_all_keywords (lines : list pystr) :
  forall line_no tokens,
    Forall (fun line => Forall (eq chicken) (split line)) lines ->
    exists emitted,
      Forall2 emits lines emitted /\
      compile_lines line_no lines tokens = inr (tokens ++ emitted).
Proof.
  induction lines as [|line rest IH]; intros line_no tokens Hall.
  - exists []. split; [constructor | simpl; now rewrite app_nil_r].
  - inversion Hall as [|? ? Hline Hrest]; subst.
    apply word_set_nil in Hline.
    destruct (compile_lines_keywords line_no line rest tokens Hline)
      as (token & Hemit & ->).
    destruct (IH (S line_no) (tokens ++ [token]) Hrest)
      as (emitted & Hem & ->).
    exists (token :: emitted). split; [now constructor|].
    now rewrite <- app_assoc.
Qed.

Lemma compile_lines_first_invalid (lines : list pystr) :
  forall line_no tokens i line,
    nth_error lines i = Some line ->
    word_set (split line) <> [] ->
    exists j line_j,
      (j <= i)%nat /\
      nth_error lines j = Some line_j /\
      word_set (split line_j) <> [] /\
      (forall k l, (k < j)%nat -> nth_error lines k = Some l ->
                   word_set (split l) = []) /\
      compile_lines line_no lines tokens
      = inl (ParseError (parse_error_message set_iter (line_no + j)
                           (word_set (split line_j)))).
Proof.
  induction lines as [|line0 rest IH]; intros line_no tokens i line Hi Hbad.
  - destruct i; discriminate.
  - destruct (word_set (split line0)) as [|w ws] eqn:E0.
    + destruct i as [|i]; [simpl in Hi; congruence|]. simpl in Hi.
      destruct (compile_lines_keywords line_no line0 rest tokens E0)
        as (token & _ & ->).
      destruct (IH (S line_no) (tokens ++ [token]) i line Hi Hbad)
        as (j & line_j & Hle & Hj & Hbadj & Hfirst & ->).
      exists (S j), line_j.
      split; [lia|]. split; [exact Hj|]. split; [exact Hbadj|]. split.
      * intros [|k] l Hk; simpl; [congruence|].
        apply Hfirst. lia.
      * now rewrite Nat.add_succ_r.
    + exists 0%nat, line0.
      split; [lia|]. split; [reflexivity|]. split; [now rewrite E0|]. split.
      * intros k l Hk. lia.
      * simpl. rewrite E0, Nat.add_0_r. reflexivity.
Qed.

(** C4. A source text whose lines hold nothing but the keyword compiles to
    one token for each line, in the order of the lines; a line of [n] words,
    [n] from 0 to 9, gives the opcode of value [n], and a line without words
    gives EXIT. *)
Theorem compile_keyword_lines (code : pystr) :
  Forall (fun line => Forall (eq chicken) (split line)) (splitlines code) ->
  exists tokens,
    compile code = inr tokens /\
    List.length tokens = List.length (splitlines code) /\
    forall i line,
      nth_error (splitlines code) i = Some line ->
      ((List.length (split line) <= 9)%nat ->
       exists o,
         OPCODE.of_Z (Z.of_nat (List.length (split line))) = Some o /\
         nth_error tokens i = Some (VOp o) /\
         (split line = [] -> o = OPCODE.EXIT)) /\
      ((9 < List.length (split line))%nat ->
       nth_error tokens i
       = Some (VInt (Z.of_nat (List.length (split line))))).
Proof.
  intros Hall.
  destruct (compile_lines_all_keywords (splitlines code) 1 [] Hall)
    as (tokens & Hem & Hc).
  exists tokens. split; [exact Hc|]. split.
  - symmetry. now apply Forall2_length with emits.
  - intros i line Hi.
    destruct (Forall2_nth_error _ _ _ Hem i line Hi) as (tok & Htok & He).
    split; intros Hn.
    + destruct He as [[Hgt _] | (_ & o & Ho & _ & ->)]; [lia|].
      exists o. split; [exact Ho|]. split; [exact Htok|].
      intros E. rewrite E in Ho. simpl in Ho. congruence.
    + destruct He as [[_ ->] | [Hle _]]; [exact Htok | lia].
Qed.

(** C9. When some line of the source text has a word that is not the
    keyword, [compile] raises [ParseError] and returns no tokens. The
    message gives the number, counted from 1, of the first such line (line
    [i] itself when no line before it has such a word) and, after it, the
    words of that line other than the keyword, each once, with a space
    between them, in the order the set yields them. *)
Theorem compile_invalid_word_ParseError (code : pystr) (i : nat)
        (line w : pystr) :
  nth_error (splitlines code) i = Some line ->
  In w (split line) ->
  w <> chicken ->
  exists j line_j invalid,
    (j <= i)%nat /\
    nth_error (splitlines code) j = Some line_j /\
    (forall k l, (k < j)%nat -> nth_error (splitlines code) k = Some l ->
                 Forall (eq chicken) (split l)) /\
    ((forall k l, (k < i)%nat -> nth_error (splitlines code) k = Some l ->
                  Forall (eq chicken) (split l)) -> j = i) /\
    invalid <> [] /\
    NoDup invalid /\
    (forall x, In x invalid <-> In x (split line_j) /\ x <> chicken) /\
    compile code
    = inl (ParseError (str "Invalid token(s) on line "
                         ++ str_of_Z (Z.of_nat (S j)) ++ str ": "
                         ++ join (str " ") invalid)) /\
    (forall tokens, compile code <> inr tokens).
Proof.
  intros Hi Hw Hne.
  assert (Hbad : word_set (split line) <> []).
  { intros E. apply word_set_nil in E. rewrite Forall_forall in E.
    apply Hne. symmetry. now apply E. }
  destruct (compile_lines_first_invalid (splitlines code) 1 [] i line Hi Hbad)
    as (j & line_j & Hle & Hj & Hbadj & Hfirst & Hc).
  pose proof (set_iter_perm (word_set (split line_j))) as Hperm.
  exists j, line_j, (set_iter (word_set (split line_j))).
  split; [exact Hle|]. split; [exact Hj|]. split.
  { intros k l Hk Hl. apply word_set_nil. now apply Hfirst with k. }
  split.
  { intros Hclean. destruct (Nat.eq_dec j i) as [E | E]; [exact E|].
    exfalso. apply Hbadj. apply word_set_nil.
    apply Hclean with j; [lia | exact Hj]. }
  split.
  { intros E. rewrite E in Hperm. apply Permutation_nil in Hperm.
    contradiction. }
  split.
  { apply Permutation_NoDup with (word_set (split line_j)).
    - now apply Permutation_sym.
    - apply word_set_NoDup. }
  split.
  { intros x. split.
    - intros Hx. apply (Permutation_in _ Hperm) in Hx.
      apply word_set_In in Hx. tauto.
    - intros [Hx Hxc]. apply (Permutation_in _ (Permutation_sym Hperm)).
      apply word_set_In. repeat split; try assumption.
      now apply split_word_not_space with line_j. }
  split.
  { exact Hc. }
  intros tokens E. pose proof (eq_trans (eq_sym Hc) E) as H. discriminate H.
Qed.

End CompilerProperties.

(** ** From a line to the stack *)

(** C5. In a source text of keyword lines, a line of [n] words with [n]
    above 9 compiles to the integer token [n] at the position of the line,
    and a turn of the loop on that token pushes [n - 10], which is then the
    top of the stack. *)
Theorem compile_literal_pushes_count_minus_10
        (set_iter : list pystr -> list pystr) (digits : N -> option N)
        (code : pystr) (i : nat) (line : pystr) (n : nat) :
  Forall (fun line => Forall (eq chicken) (split line)) (splitlines code) ->
  nth_error (splitlines code) i = Some line ->
  List.length (split line) = n ->
  (9 < n)%nat ->
  exists tokens,
    compile set_iter code = inr tokens /\
    nth_error tokens i = Some (VInt (Z.of_nat n)) /\
    forall m,
      list_getitem (stack m) (VInt (instruction_pointer m))
      = inr (VInt (Z.of_nat n)) ->
      exists m',
        Machine.step digits m = Ok tt m' /\
        stack m' = stack m ++ [VInt (Z.of_nat n - 10)] /\
        instruction_pointer m' = instruction_pointer m + 1 /\
        Machine.peek m' = Ok (VInt (Z.of_nat n - 10)) m'.
Proof.
  intros Hall Hi Hlen Hn.
  destruct (compile_lines_all_keywords set_iter (splitlines code) 1 [] Hall)
    as (tokens & Hem & Hc).
  exists tokens. split; [exact Hc|]. split.
  - destruct (Forall2_nth_error _ _ _ Hem i line Hi) as (tok & Htok & He).
    destruct He as [[_ ->] | [Hle _]]; [now rewrite Hlen in Htok | lia].
  - intros m Hat.
    exists (mkMachine (stack m ++ [VInt (Z.of_nat n - 10)])
                      (instruction_pointer m + 1) (_data_start m)).
    split; [|split; [reflexivity | split; [reflexivity|]]].
    + unfold Machine.step, bind. now rewrite (next_token_at m _ Hat).
    + now apply peek_last with (stack m).
Qed.

(** ** The theorems at work on programs *)






Lemma SUB_MUL_non_numeric_string_raises_witness :
  exists e,
    (e = ValueError \/ e = TypeError) /\
    Machine.step ascii_digits_only
      (mkMachine [VStack; VStr []; VInt 13; VOp OPCODE.CHICKEN; VOp OPCODE.MUL;
                  VOp OPCODE.EXIT; VInt 3; VStr chicken] 4 6)
    = Raise e
        (mkMachine [VStack; VStr []; VInt 13; VOp OPCODE.CHICKEN;
                    VOp OPCODE.MUL; VOp OPCODE.EXIT] (4 + 1) 6) /\
    Machine.run ascii_digits_only 1
      (mkMachine [VStack; VStr []; VInt 13; VOp OPCODE.CHICKEN; VOp OPCODE.MUL;
                  VOp OPCODE.EXIT; VInt 3; VStr chicken] 4 6)
    = Some (Raise e
              (mkMachine [VStack; VStr []; VInt 13; VOp OPCODE.CHICKEN;
                          VOp OPCODE.MUL; VOp OPCODE.EXIT] (4 + 1) 6)).
Proof.
  apply (SUB_MUL_non_numeric_string_raises ascii_digits_only 0
           (mkMachine [VStack; VStr []; VInt 13; VOp OPCODE.CHICKEN;
                       VOp OPCODE.MUL; VOp OPCODE.EXIT; VInt 3; VStr chicken]
                      4 6)
           OPCODE.MUL
           [VStack; VStr []; VInt 13; VOp OPCODE.CHICKEN; VOp OPCODE.MUL;
            VOp OPCODE.EXIT]
           (VInt 3) (VStr chicken) chicken).
  - right. reflexivity.
  - reflexivity.
  - reflexivity.
  - right. reflexivity.
  - reflexivity.
Defined.

Lemma compile_keyword_lines_witness :
  exists tokens,
    compile as_listed three_keyword_lines = inr tokens /\
    List.length tokens = List.length (splitlines three_keyword_lines) /\
    forall i line,
      nth_error (splitlines three_keyword_lines) i = Some line ->
      ((List.length (split line) <= 9)%nat ->
       exists o,
         OPCODE.of_Z (Z.of_nat (List.length (split line))) = Some o /\
         nth_error tokens i = Some (VOp o) /\
         (split line = [] -> o = OPCODE.EXIT)) /\
      ((9 < List.length (split line))%nat ->
       nth_error tokens i
       = Some (VInt (Z.of_nat (List.length (split line))))).
Proof.
  apply (compile_keyword_lines as_listed three_keyword_lines).
  vm_compute. repeat constructor.
Defined.

Lemma compile_literal_pushes_count_minus_10_witness :
  exists tokens,
    compile as_listed eleven_keywords = inr tokens /\
    nth_error tokens 0 = Some (VInt (Z.of_nat 11)) /\
    forall m,
      list_getitem (stack m) (VInt (instruction_pointer m))
      = inr (VInt (Z.of_nat 11)) ->
      exists m',
        Machine.step ascii_digits_only m = Ok tt m' /\
        stack m' = stack m ++ [VInt (Z.of_nat 11 - 10)] /\
        instruction_pointer m' = instruction_pointer m + 1 /\
        Machine.peek m' = Ok (VInt (Z.of_nat 11 - 10)) m'.
Proof.
  apply (compile_literal_pushes_count_minus_10 as_listed
           ascii_digits_only eleven_keywords 0 eleven_keywords 11).
  - vm_compute. repeat constructor.
  - reflexivity.
  - reflexivity.
  - lia.
Defined.

Lemma compile_invalid_word_ParseError_witness :
  exists j line_j invalid,
    (j <= 1)%nat /\
    nth_error (splitlines keyword_then_foo_bar) j = Some line_j /\
    (forall k l, (k < j)%nat ->
                 nth_error (splitlines keyword_then_foo_bar) k = Some l ->
                 Forall (eq chicken) (split l)) /\
    ((forall k l, (k < 1)%nat ->
                  nth_error (splitlines keyword_then_foo_bar) k = Some l ->
                  Forall (eq chicken) (split l)) -> j = 1%nat) /\
    invalid <> [] /\
    NoDup invalid /\
    (forall x, In x invalid <-> In x (split line_j) /\ x <> chicken) /\
    compile as_listed keyword_then_foo_bar
    = inl (ParseError (str "Invalid token(s) on line "
                         ++ str_of_Z (Z.of_nat (S j)) ++ str ": "
                         ++ join (str " ") invalid)) /\
    (forall tokens, compile as_listed keyword_then_foo_bar
                    <> inr tokens).
Proof.
  apply (compile_invalid_word_ParseError as_listed
           (fun s => Permutation_refl s) keyword_then_foo_bar 1
           (str "foo chicken bar foo") (str "foo")).
  - reflexivity.
  - vm_compute. left. reflexivity.
  - discriminate.
Defined.

Example compile_keyword_then_foo_bar :
  compile as_listed keyword_then_foo_bar
  = inl (ParseError (str "Invalid token(s) on line 2: bar foo")).
Proof. reflexivity. Qed.

(** ** Whole programs *)

(** One keyword, then a blank line: the result is the string that CHICKEN
    pushes. *)
Example run_CHICKEN_EXIT :
  compile as_listed (chicken ++ [10%N] ++ [10%N])
  = inr [VOp OPCODE.CHICKEN; VOp OPCODE.EXIT] /\
  Machine.run ascii_digits_only 2
    (Machine.init [VOp OPCODE.CHICKEN; VOp OPCODE.EXIT] [])
  = Some (Ok (VStr chicken)
             (mkMachine [VStack; VStr []; VOp OPCODE.CHICKEN; VOp OPCODE.EXIT;
                         VOp OPCODE.EXIT; VStr chicken] 3 5)).
Proof. split; reflexivity. Qed.

(** Lines of 20, 13 and 3 words: push 10, push 3, SUB; the result is 7. *)
Example run_10_minus_3 :
  Machine.run ascii_digits_only 4
    (Machine.init [VInt 20; VInt 13; VOp OPCODE.SUB] [])
  = Some (Ok (VInt 7)
             (mkMachine [VStack; VStr []; VInt 20; VInt 13; VOp OPCODE.SUB;
                         VOp OPCODE.EXIT; VInt 7] 5 6)).
Proof. reflexivity. Qed.

(** Lines of 11, 11, 5, 11 and 5 words: [1 == 1] is [True], and then
    [True == 1] is [True] again. *)
Example run_CMP_True_1 :
  Machine.run ascii_digits_only 6
    (Machine.init [VInt 11; VInt 11; VOp OPCODE.CMP; VInt 11; VOp OPCODE.CMP]
                  [])
  = Some (Ok (VBool true)
             (mkMachine [VStack; VStr []; VInt 11; VInt 11; VOp OPCODE.CMP;
                         VInt 11; VOp OPCODE.CMP; VOp OPCODE.EXIT; VBool true]
                        7 8)).
Proof. reflexivity. Qed.

(** A single JMP: the pointer ends beyond the two slots that are left, and
    the result is the input string. *)
Example run_JMP_alone :
  Machine.run ascii_digits_only 2
    (Machine.init [VOp OPCODE.JMP] (str "in"))
  = Some (Ok (VStr (str "in")) (mkMachine [VStack; VStr (str "in")] 3 4)).
Proof. reflexivity. Qed.

(** * More of the virtual machine *)

(** X1. [OPCODE(n)] and [.value] undo each other: the opcode of value [n]
    exists exactly for [n] from 0 to 9, and looking up the value of an
    opcode gives that opcode back, so no two opcodes share a value. *)
Theorem OPCODE_of_Z_value (o : OPCODE.t) (n : Z) :
  (OPCODE.of_Z n = Some o <-> OPCODE.value o = n) /\
  (OPCODE.of_Z n = None <-> n < 0 \/ 9 < n).
Proof.
  assert (Hsmall : (0 <= n <= 9) \/ (n < 0 \/ 9 < n)) by lia.
  destruct Hsmall as [Hin | Hout].
  - destruct (OPCODE_of_Z_digit (Z.to_nat n)) as (o' & Ho' & Hv'); [lia|].
    rewrite Z2Nat.id in Ho', Hv' by lia.
    rewrite Ho'. split; split.
    + intros [= <-]. exact Hv'.
    + intros <-. f_equal. destruct o, o'; simpl in Hv'; congruence.
    + discriminate.
    + lia.
  - assert (Hnone : OPCODE.of_Z n = None).
    { destruct n as [|q|q]; [lia | | reflexivity].
      destruct (OPCODE.of_Z (Z.pos q)) as [o'|] eqn:E; [|reflexivity].
      exfalso. destruct o'; simpl in E;
        repeat (destruct q as [q|q|]; try discriminate); lia. }
    rewrite Hnone. split; split.
    + discriminate.
    + intros <-. destruct o; simpl in Hout; lia.
    + intros _. exact Hout.
    + reflexivity.
Qed.

Lemma set_stack_same (m : Machine) : set_stack m (stack m) = m.
Proof.
  now destruct m.
Qed.

(** X2. What [push] puts on the stack, [pop] takes off again, and the
    machine is as before; [peek] after [push] reads the value and takes
    nothing off. *)
Theorem push_then_pop (m : Machine) (v : value) :
  (_ <- Machine.push v ;; Machine.pop) m = Ok v m /\
  (_ <- Machine.push v ;; Machine.peek) m
  = Ok v (set_stack m (stack m ++ [v])).
Proof.
  split; unfold bind, Machine.push.
  - rewrite (pop_last _ (stack m) v) by reflexivity.
    now destruct m.
  - now rewrite (peek_last _ (stack m) v) by reflexivity.
Qed.

Lemma pop_empty (m : Machine) :
  stack m = [] -> Machine.pop m = Raise IndexError m.
Proof.
  intros H. unfold Machine.pop. now rewrite H.
Qed.

Section MoreMachineProperties.

Variable Py_UNICODE_TODECIMAL : N -> option N.

Local Abbreviation dispatch := (Machine.dispatch Py_UNICODE_TODECIMAL).
Local Abbreviation step := (Machine.step Py_UNICODE_TODECIMAL).
Local Abbreviation run := (Machine.run Py_UNICODE_TODECIMAL).
Local Abbreviation int_of_str := (Machine.int_of_str Py_UNICODE_TODECIMAL).

(** X3. An opcode that pops two operands, met with fewer than two slots on
    the stack, raises [IndexError] from [pop]; the one slot there was is
    gone by then, so the stack is empty when the exception leaves. *)
Theorem dispatch_underflow (m : Machine) (o : OPCODE.t) :
  pops_two o ->
  (List.length (stack m) < 2)%nat ->
  dispatch (VOp o) m = Raise IndexError (set_stack m []).
Proof.
  intros Ho Hlen.
  assert (E : forall A (k : value -> value -> M A),
             (x <- Machine.pop ;; y <- Machine.pop ;; k x y) m
             = Raise IndexError (set_stack m [])).
  { intros A k. unfold bind.
    destruct (stack m) as [|v [|w l]] eqn:Es; [| |simpl in Hlen; lia].
    - rewrite (pop_empty m Es). now rewrite <- Es, set_stack_same.
    - rewrite (pop_last m [] v Es).
      now rewrite (pop_empty (set_stack m [])). }
  destruct Ho as [-> | [-> | [-> | [-> | [-> | ->]]]]];
    unfold Machine.dispatch; apply E.
Qed.


(** X5. [run] on a machine whose instruction pointer equals the length of
    its stack, or whose stack is empty, raises [IndexError] at once and
    leaves the machine as it was: the read under the pointer fails in the
    first case, and in the second either that read or [peek] does. *)
Theorem run_raises_at_length_or_empty (fuel : nat) (m : Machine) :
  instruction_pointer m = Z.of_nat (List.length (stack m)) \/ stack m = [] ->
  run (S fuel) m = Some (Raise IndexError m).
Proof.
  intros [E | E]; [now apply run_at_length|].
  simpl. rewrite E. simpl.
  destruct (Z.leb_spec (instruction_pointer m) 0).
  - rewrite (list_getitem_out_of_range [] _ (instruction_pointer m));
      [reflexivity | reflexivity | unfold out_of_range; simpl; lia].
  - unfold Machine.peek. now rewrite E.
Qed.

(** ** Reads and writes in range *)




Lemma replace_nth_length (l : list value) (n : nat) (v : value) :
  List.length (replace_nth n v l) = List.length l.
Proof.
  revert n. induction l as [|x l IH]; intros [|n]; simpl; try reflexivity.
  now rewrite IH.
Qed.




(** ** CHAR *)

(** X8. CHAR pops an integer and pushes the string of the one character
    with that code point, for code points from 0 to 0x10FFFF. Outside that
    range [chr] raises ([ValueError], or [OverflowError] beyond a C int),
    and the operand is already popped when the exception leaves. *)
Theorem CHAR_code_point (m : Machine) (rest : list value) (token : value)
        (i : Z) :
  stack m = rest ++ [token] ->
  as_int token = Some i ->
  (0 <= i <= 1114111 ->
   dispatch (VOp OPCODE.CHAR) m
   = Ok tt (set_stack m (rest ++ [VStr [Z.to_N i]]))) /\
  (i < 0 \/ 1114111 < i ->
   exists e,
     (e = ValueError \/ e = OverflowError) /\
     dispatch (VOp OPCODE.CHAR) m = Raise e (set_stack m rest)).
Proof.
  intros Hs Hi.
  unfold Machine.dispatch, bind.
  rewrite (pop_last m rest token Hs).
  unfold py_chr. rewrite Hi.
  split.
  - intros Hr.
    destruct (Z.ltb_spec i (-2147483648)); [lia|].
    destruct (Z.ltb_spec 2147483647 i); [lia|].
    destruct (Z.ltb_spec i 0); [lia|].
    destruct (Z.ltb_spec 1114111 i); [lia|].
    reflexivity.
  - intros Hr.
    destruct (Z.ltb_spec i (-2147483648));
      [exists OverflowError; split; [now right | reflexivity]|].
    destruct (Z.ltb_spec 2147483647 i);
      [exists OverflowError; split; [now right | reflexivity]|].
    simpl orb.
    destruct (Z.ltb_spec i 0);
      [exists ValueError; split; [now left | reflexivity]|].
    destruct (Z.ltb_spec 1114111 i); [|lia].
    exists ValueError. split; [now left | reflexivity].
Qed.

(** ** The effect of a token on the machine *)

Lemma pop_cases (m : Machine) :
  (stack m = [] /\ Machine.pop m = Raise IndexError m) \/
  (exists rest v, stack m = rest ++ [v] /\
                  Machine.pop m = Ok v (set_stack m rest)).
Proof.
  destruct (stack m) as [|x l] eqn:E.
  - left. split; [reflexivity | now apply pop_empty].
  - right. destruct (exists_last (l := x :: l)) as (rest & v & Hl);
      [discriminate|].
    exists rest, v. rewrite Hl. split; [reflexivity|].
    apply pop_last. now rewrite E.
Qed.

Ltac pop_case :=
  match goal with
  | |- context [Machine.pop ?m] =>
      let Hs := fresh "Hs" in
      let Hp := fresh "Hp" in
      let rest := fresh "rest" in
      let v := fresh "v" in
      destruct (pop_cases m) as [[Hs Hp] | (rest & v & Hs & Hp)];
      rewrite Hp; clear Hp; cbv beta iota; simpl stack in Hs
  end.

Ltac case_matches :=
  repeat match goal with
         | |- context [match ?x with _ => _ end] =>
             lazymatch x with
             | context [match _ with _ => _ end] => fail
             | _ => destruct x eqn:?; cbv beta iota
             end
         end.

Ltac stack_lengths :=
  simpl; intros; unfold ret, raise, unmodelled in *;
  repeat match goal with
         | H : Ok _ _ = _ |- _ => inversion H; clear H
         | H : Raise _ _ = _ |- _ => inversion H; clear H
         | H : Unmodelled _ = _ |- _ => inversion H; clear H
         | H : inr _ = _ |- _ => inversion H; clear H
         | H : inl _ = _ |- _ => inversion H; clear H
         end;
  subst; simpl; try reflexivity;
  repeat match goal with
         | H : stack _ = _ |- _ => rewrite H
         end;
  rewrite ?length_app, ?replace_nth_length; simpl; try lia.

Ltac effect_leaf := unfold keeps_effect; (split; [|split]); stack_lengths.

Lemma dispatch_LOAD_effect (m : Machine) :
  keeps_effect m 0 (dispatch (VOp OPCODE.LOAD) m).
Proof.
  unfold Machine.dispatch, bind, Machine.next_token.
  destruct (list_getitem (stack m) (VInt (instruction_pointer m)))
    as [e | load_from]; [effect_leaf|].
  unfold Machine.stack_getitem at 1. simpl stack.
  destruct (list_getitem (stack m) load_from) as [e | source];
    [effect_leaf|].
  unfold lift at 1, ret at 1.
  pop_case; [effect_leaf|].
  unfold Machine.getitem, Machine.stack_getitem, Machine.push,
    lift, ret, raise.
  destruct source as [z | b | o | s |]; simpl stack;
    case_matches; effect_leaf.
Qed.

(** X9. However a token ends, [_data_start] is what it was. A token that
    runs to its end changes the length of the stack by its own fixed
    amount: CHICKEN and a literal add one slot, ADD, SUB, MUL and CMP take
    one away, STORE and JMP take two away, LOAD and CHAR leave the length
    alone. A token that raises never leaves the stack longer than it
    was. *)
Theorem dispatch_stack_effect (m : Machine) (op : value) :
  _data_start (machine_of (dispatch op m)) = _data_start m /\
  (forall m', dispatch op m = Ok tt m' ->
              Z.of_nat (List.length (stack m'))
              = Z.of_nat (List.length (stack m)) + stack_effect op) /\
  (forall e m', dispatch op m = Raise e m' ->
                (List.length (stack m') <= List.length (stack m))%nat).
Proof.
  change (keeps_effect m (stack_effect op) (dispatch op m)).
  destruct op as [z | b | o | s |]; [| | destruct o | |];
    try exact (dispatch_LOAD_effect m);
    unfold Machine.dispatch;
    unfold bind, lift, ret, raise, unmodelled, Machine.push,
      Machine.stack_setitem, Machine.truth,
      Machine.add_to_instruction_pointer,
      Machine.add_or_concat, py_sub_10, list_setitem;
    simpl as_int; cbv beta iota;
    repeat pop_case;
    case_matches;
    effect_leaf.
Qed.

(** ** From an integer to its text and back *)







(** ** SUB and MUL on numbers *)



(** ** Programs of literals *)

Lemma list_getitem_middle (pre post : list value) (x : value) :
  list_getitem (pre ++ x :: post) (VInt (Z.of_nat (List.length pre)))
  = inr x.
Proof.
  unfold list_getitem, py_index. simpl as_int. cbv iota.
  rewrite length_app. simpl List.length.
  destruct (Z.leb_spec 0 (Z.of_nat (List.length pre))); [|lia].
  destruct (Z.ltb_spec (Z.of_nat (List.length pre))
                       (Z.of_nat (List.length pre + S (List.length post))));
    [|lia].
  rewrite Nat2Z.id, nth_error_app2 by lia.
  now rewrite Nat.sub_diag.
Qed.

Lemma last_cons_default {A} (l : list A) :
  forall x d, last (x :: l) d = last l x.
Proof.
  induction l as [|y l IH]; intros x d; [reflexivity|].
  change (last (y :: l) d = last (y :: l) x). now rewrite !IH.
Qed.

Lemma peek_top (m : Machine) (pre data : list value) (x d : value) :
  stack m = pre ++ x :: data ->
  Machine.peek m = Ok (last data x) m.
Proof.
  intros Hs.
  destruct (exists_last (l := x :: data)) as (l' & a & E); [discriminate|].
  rewrite <- (last_cons_default data x d), E, last_last.
  apply peek_last with (pre ++ l'). now rewrite Hs, E, app_assoc.
Qed.

Lemma run_literals_from (ns : list Z) :
  forall (pre data : list value) (m : Machine),
    stack m = pre ++ map VInt ns ++ VOp OPCODE.EXIT :: data ->
    instruction_pointer m = Z.of_nat (List.length pre) ->
    run (S (List.length ns)) m
    = Some (Ok (last (data ++ map (fun n => VInt (n - 10)) ns)
                     (VOp OPCODE.EXIT))
               (mkMachine (stack m ++ map (fun n => VInt (n - 10)) ns)
                          (instruction_pointer m
                           + Z.of_nat (List.length ns))
                          (_data_start m))).
Proof.
  induction ns as [|n ns IH]; intros pre data m Hs Hip.
  - simpl map in *. simpl List.length. rewrite app_nil_r, Z.add_0_r.
    simpl app in Hs.
    assert (Hat : list_getitem (stack m) (VInt (instruction_pointer m))
                  = inr (VOp OPCODE.EXIT))
      by (rewrite Hs, Hip; apply list_getitem_middle).
    pose proof (list_getitem_lt _ _ _ Hat) as Hlt.
    simpl.
    destruct (Z.leb_spec (instruction_pointer m)
                         (Z.of_nat (List.length (stack m)))); [|lia].
    rewrite Hat. simpl.
    rewrite (peek_top m pre data (VOp OPCODE.EXIT) (VOp OPCODE.EXIT) Hs).
    rewrite app_nil_r. now destruct m.
  - simpl map in *. simpl app in Hs.
    assert (Hat : list_getitem (stack m) (VInt (instruction_pointer m))
                  = inr (VInt n))
      by (rewrite Hs, Hip; apply list_getitem_middle).
    rewrite (run_turn Py_UNICODE_TODECIMAL _ m
               (mkMachine (stack m ++ [VInt (n - 10)])
                          (instruction_pointer m + 1) (_data_start m))
               (VInt n) Hat eq_refl).
    + rewrite (IH (pre ++ [VInt n]) (data ++ [VInt (n - 10)])).
      * simpl stack. simpl instruction_pointer. simpl _data_start.
        repeat (rewrite <- app_assoc || rewrite <- app_comm_cons).
        simpl app. do 3 f_equal. simpl List.length. lia.
      * simpl stack. rewrite Hs.
        repeat (rewrite <- app_assoc || rewrite <- app_comm_cons).
        reflexivity.
      * simpl instruction_pointer. rewrite Hip, length_app. simpl. lia.
    + unfold Machine.step, bind. now rewrite (next_token_at m _ Hat).
Qed.

Lemma skipn_length_app {A} (l l' : list A) :
  skipn (List.length l) (l ++ l') = l'.
Proof.
  induction l as [|x l IH]; [reflexivity | exact IH].
Qed.


End MoreMachineProperties.

(** * More of the compiler *)

Lemma OPCODE_of_Z_above (n : Z) : 9 < n -> OPCODE.of_Z n = None.
Proof.
  intros H. destruct n as [|q|q]; [lia | | lia].
  destruct (OPCODE.of_Z (Z.pos q)) as [o|] eqn:E; [|reflexivity].
  exfalso. destruct o; simpl in E;
    repeat (destruct q as [q|q|]; try discriminate); lia.
Qed.

Lemma emits_count_token (line : pystr) (token : value) :
  emits line token -> token = count_token (List.length (split line)).
Proof.
  unfold emits, count_token.
  intros [[Hgt ->] | (_ & o & Ho & _ & ->)].
  - now rewrite OPCODE_of_Z_above.
  - now rewrite Ho.
Qed.

Lemma Forall2_emits_map (lines : list pystr) (tokens : list value) :
  Forall2 emits lines tokens ->
  tokens = map (fun line => count_token (List.length (split line))) lines.
Proof.
  induction 1 as [|line token lines tokens He _ IH]; [reflexivity|].
  simpl. now rewrite <- IH, <- (emits_count_token line token He).
Qed.

Lemma keyword_only_dec (lines : list pystr) :
  Forall keyword_only lines \/
  exists i line w, nth_error lines i = Some line /\
                   In w (split line) /\ w <> chicken.
Proof.
  induction lines as [|line lines IH]; [left; constructor|].
  destruct (word_set (split line)) as [|w ws] eqn:E.
  - apply word_set_nil in E.
    destruct IH as [IH | (i & l & w & Hi & Hw & Hne)].
    + left. now constructor.
    + right. now exists (S i), l, w.
  - right. exists 0%nat, line, w. split; [reflexivity|].
    assert (Hin : In w (word_set (split line))) by (rewrite E; now left).
    apply word_set_In in Hin. tauto.
Qed.

Section MoreCompilerProperties.

Variable set_iter : list pystr -> list pystr.

Local Abbreviation compile := (compile set_iter).

(** X13. [compile] ends in one of two ways, and in no third: it returns
    tokens, exactly when every word of every line is the keyword, or it
    raises [ParseError], exactly when some line has another word. The
    lookup [OPCODE(n)] in it never fails. *)
Theorem compile_tokens_or_ParseError (code : pystr) :
  (Forall keyword_only (splitlines code) /\
   exists tokens, compile code = inr tokens) \/
  ((exists i line w, nth_error (splitlines code) i = Some line /\
                     In w (split line) /\ w <> chicken) /\
   exists message, compile code = inl (ParseError message)).
Proof.
  destruct (keyword_only_dec (splitlines code))
    as [Hall | (i & line & w & Hi & Hw & Hne)].
  - left. split; [exact Hall|].
    destruct (compile_lines_all_keywords set_iter (splitlines code) 1 []
                Hall) as (tokens & _ & Hc).
    now exists tokens.
  - right. split; [now exists i, line, w|].
    assert (Hbad : word_set (split line) <> []).
    { intros E. apply word_set_nil in E. unfold keyword_only in E.
      rewrite Forall_forall in E. apply Hne. symmetry. now apply E. }
    destruct (compile_lines_first_invalid set_iter (splitlines code) 1 []
                i line Hi Hbad) as (j & line_j & _ & _ & _ & _ & Hc).
    eexists. exact Hc.
Qed.

(** X14. The tokens [compile] returns are a function of the word counts of
    the lines alone: the token at each position is the opcode of the count
    of its line when the count is at most 9, and the count itself when it
    is above 9. The spacing within a line and the kind of line break do
    not show in the tokens. *)
Theorem compile_tokens_of_counts (code : pystr) (tokens : list value) :
  compile code = inr tokens ->
  tokens = map (fun line => count_token (List.length (split line)))
               (splitlines code) /\
  Forall (fun token =>
            (exists o, token = VOp o) \/
            (exists n, token = VInt n /\ 9 < n)) tokens.
Proof.
  intros Hc.
  destruct (keyword_only_dec (splitlines code))
    as [Hall | (i & line & w & Hi & Hw & Hne)].
  - destruct (compile_lines_all_keywords set_iter (splitlines code) 1 []
                Hall) as (emitted & Hem & Hc').
    assert (tokens = emitted) as ->.
    { pose proof (eq_trans (eq_sym Hc) Hc') as H. now injection H. }
    split; [now apply Forall2_emits_map|].
    clear Hc Hc' Hall.
    induction Hem as [|line token lines emitted He _ IH]; [constructor|].
    constructor; [|exact IH].
    destruct He as [[Hgt ->] | (_ & o & _ & _ & ->)].
    + right. eexists. split; [reflexivity | exact Hgt].
    + left. now exists o.
  - exfalso.
    assert (Hbad : word_set (split line) <> []).
    { intros E. apply word_set_nil in E. unfold keyword_only in E.
      rewrite Forall_forall in E. apply Hne. symmetry. now apply E. }
    destruct (compile_lines_first_invalid set_iter (splitlines code) 1 []
                i line Hi Hbad) as (j & line_j & _ & _ & _ & _ & Hc').
    pose proof (eq_trans (eq_sym Hc) Hc') as H. discriminate H.
Qed.

(** ** From word counts to a source text and back *)

Lemma not_break_not_CR (c : N) :
  Py_UNICODE_ISLINEBREAK c = false -> (c =? 13)%N = false.
Proof.
  intros H. destruct (N.eqb_spec c 13) as [-> | _]; [discriminate H|].
  reflexivity.
Qed.

Lemma splitlines_from_run (w : pystr) :
  forall cur s,
    Forall (fun c => Py_UNICODE_ISLINEBREAK c = false) w ->
    splitlines_from cur (w ++ s) = splitlines_from (rev w ++ cur) s.
Proof.
  induction w as [|c w IH]; intros cur s Hw; [reflexivity|].
  inversion Hw as [|? ? Hc Hw']; subst.
  simpl. rewrite (not_break_not_CR c Hc), Hc, (IH _ _ Hw'), <- app_assoc.
  reflexivity.
Qed.

Lemma split_from_run (w : pystr) :
  forall cur s,
    Forall (fun c => Py_UNICODE_ISSPACE c = false) w ->
    split_from cur (w ++ s) = split_from (rev w ++ cur) s.
Proof.
  induction w as [|c w IH]; intros cur s Hw; [reflexivity|].
  inversion Hw as [|? ? Hc Hw']; subst.
  simpl. rewrite Hc, (IH _ _ Hw'), <- app_assoc. reflexivity.
Qed.

Lemma keyword_line_SS (n : nat) :
  keyword_line (S (S n)) = chicken ++ str " " ++ keyword_line (S n).
Proof.
  reflexivity.
Qed.

Lemma chicken_no_space : Forall (fun c => Py_UNICODE_ISSPACE c = false) chicken.
Proof.
  repeat constructor.
Qed.

Lemma split_keyword_line (n : nat) :
  split (keyword_line n) = repeat chicken n.
Proof.
  destruct n as [|n]; [reflexivity|].
  induction n as [|n IH]; [reflexivity|].
  rewrite keyword_line_SS. unfold split in *.
  rewrite (split_from_run chicken [] _ chicken_no_space).
  change (split_from (rev chicken ++ []) (str " " ++ keyword_line (S n)))
    with (chicken :: split_from [] (keyword_line (S n))).
  rewrite IH. reflexivity.
Qed.

Lemma keyword_line_no_break (n : nat) :
  Forall (fun c => Py_UNICODE_ISLINEBREAK c = false) (keyword_line n).
Proof.
  destruct n as [|n]; [constructor|].
  induction n as [|n IH]; [repeat constructor|].
  rewrite keyword_line_SS.
  apply Forall_app. split; [repeat constructor|].
  apply Forall_app. split; [repeat constructor | exact IH].
Qed.

Lemma splitlines_program_text (ns : list nat) :
  splitlines (program_text ns) = map keyword_line ns.
Proof.
  unfold splitlines.
  induction ns as [|n ns IH]; [reflexivity|].
  change (program_text (n :: ns))
    with ((keyword_line n ++ [10%N]) ++ program_text ns).
  rewrite <- app_assoc.
  rewrite (splitlines_from_run _ [] _ (keyword_line_no_break n)).
  change (splitlines_from (rev (keyword_line n) ++ [])
                          ([10%N] ++ program_text ns))
    with (rev (rev (keyword_line n) ++ [])
            :: splitlines_from [] (program_text ns)).
  now rewrite IH, app_nil_r, rev_involutive.
Qed.

Lemma program_text_keyword_only (ns : list nat) :
  Forall keyword_only (map keyword_line ns).
Proof.
  apply Forall_forall. intros line Hin.
  apply in_map_iff in Hin. destruct Hin as (n & <- & _).
  unfold keyword_only. rewrite split_keyword_line.
  apply Forall_forall. intros w Hw. symmetry. now apply repeat_spec with n.
Qed.

Lemma compile_lines_keyword_lines (ns : list nat) :
  compile_lines set_iter 1 (map keyword_line ns) []
  = inr (map count_token ns).
Proof.
  destruct (compile_lines_all_keywords set_iter (map keyword_line ns) 1 []
              (program_text_keyword_only ns)) as (emitted & Hem & ->).
  simpl. f_equal.
  rewrite (Forall2_emits_map _ _ Hem), map_map.
  apply map_ext. intros n. now rewrite split_keyword_line, repeat_length.
Qed.

(** X15. Spelling word counts as lines of keywords and compiling the text
    gives the tokens of the counts back, one for each count and in order: a
    count of 0, a blank line, gives EXIT. No count makes [compile] fail,
    and the empty text compiles to no tokens at all. *)
Theorem compile_program_text (ns : list nat) :
  compile (program_text ns) = inr (map count_token ns) /\
  (forall i n,
      nth_error ns i = Some n ->
      ((9 < n)%nat ->
       nth_error (map count_token ns) i = Some (VInt (Z.of_nat n))) /\
      ((n <= 9)%nat ->
       exists o, OPCODE.value o = Z.of_nat n /\
                 nth_error (map count_token ns) i = Some (VOp o))).
Proof.
  split.
  - change (compile_lines set_iter 1 (splitlines (program_text ns)) []
            = inr (map count_token ns)).
    rewrite splitlines_program_text. apply compile_lines_keyword_lines.
  - intros i n Hi. rewrite (map_nth_error _ _ _ Hi). unfold count_token.
    split; intros Hn.
    + rewrite OPCODE_of_Z_above by lia. reflexivity.
    + destruct (OPCODE_of_Z_digit n Hn) as (o & -> & Hv). now exists o.
Qed.

(** ** [interpret] *)

Variable Py_UNICODE_TODECIMAL : N -> option N.

(** X16. [interpret] returns the failure status exactly for a source text
    with a word that is not the keyword: it then echoes [ERROR: ] and the
    message of the [ParseError] to the error stream, whatever the input,
    and the machine is never run. For a text of keywords alone it never
    returns the failure status: when it returns, the status is success and
    the echo goes to the standard output. *)
Theorem interpret_exit_status (code : pystr) :
  ((exists i line w, nth_error (splitlines code) i = Some line /\
                     In w (split line) /\ w <> chicken) ->
   exists message,
     compile code = inl (ParseError message) /\
     forall fuel input,
       interpret set_iter Py_UNICODE_TODECIMAL fuel code input
       = Some (Returned (Stderr (str "ERROR: " ++ message)) EXIT_FAILURE)) /\
  (Forall keyword_only (splitlines code) ->
   forall fuel input out status,
     interpret set_iter Py_UNICODE_TODECIMAL fuel code input
     = Some (Returned out status) ->
     status = EXIT_SUCCESS /\ exists text, out = Stdout text).
Proof.
  split.
  - intros (i & line & w & Hi & Hw & Hne).
    assert (Hbad : word_set (split line) <> []).
    { intros E. apply word_set_nil in E. rewrite Forall_forall in E.
      apply Hne. symmetry. now apply E. }
    destruct (compile_lines_first_invalid set_iter (splitlines code) 1 []
                i line Hi Hbad) as (j & line_j & _ & _ & _ & _ & Hc).
    eexists. split; [exact Hc|].
    intros fuel input. unfold interpret.
    match goal with
    | |- context [compile code] =>
        replace (compile code)
          with (compile_lines set_iter 1 (splitlines code) [])
          by reflexivity
    end.
    now rewrite Hc.
  - intros Hall fuel input out status.
    destruct (compile_lines_all_keywords set_iter (splitlines code) 1 []
                Hall) as (tokens & _ & Hc).
    unfold interpret.
    match goal with
    | |- context [compile code] =>
        replace (compile code)
          with (compile_lines set_iter 1 (splitlines code) [])
          by reflexivity
    end.
    rewrite Hc. simpl app.
    destruct (Machine.run Py_UNICODE_TODECIMAL fuel
                          (Machine.init tokens input))
      as [[result m | e m | m]|]; try discriminate.
    destruct (py_format result) as [text|]; [|discriminate].
    intros [= <- <-]. split; [reflexivity | now exists text].
Qed.

(** X17. A source text that spells counts above 9 only, run through
    [interpret] with fuel for one turn more than it has lines, echoes to the
    standard output the last count less ten (the text of the EXIT sentinel
    when there is no count at all) and returns the success status, whatever
    the input. *)
Theorem interpret_literal_program (ns : list nat) (input : pystr) :
  Forall (fun n => (9 < n)%nat) ns ->
  exists text,
    py_format (last (map (fun n => VInt (Z.of_nat n - 10)) ns)
                    (VOp OPCODE.EXIT)) = Some text /\
    interpret set_iter Py_UNICODE_TODECIMAL (S (List.length ns))
              (program_text ns) input
    = Some (Returned (Stdout text) EXIT_SUCCESS).
Proof.
  intros Hns.
  assert (Htok : map count_token ns = map VInt (map Z.of_nat ns)).
  { rewrite map_map. apply map_ext_in. intros n Hn.
    rewrite Forall_forall in Hns. unfold count_token.
    rewrite OPCODE_of_Z_above; [reflexivity|].
    specialize (Hns n Hn). lia. }
  pose proof (run_literals_from Py_UNICODE_TODECIMAL (map Z.of_nat ns)
                [VStack; VStr input] []
                (Machine.init (map VInt (map Z.of_nat ns)) input)
                eq_refl eq_refl) as Hrun.
  assert (Hlast : last (map (fun n => VInt (n - 10)) (map Z.of_nat ns))
                       (VOp OPCODE.EXIT)
                  = last (map (fun n => VInt (Z.of_nat n - 10)) ns)
                         (VOp OPCODE.EXIT))
    by now rewrite map_map.
  assert (Htext : exists text,
             py_format (last (map (fun n => VInt (Z.of_nat n - 10)) ns)
                             (VOp OPCODE.EXIT)) = Some text).
  { destruct (last (map (fun n => VInt (Z.of_nat n - 10)) ns)
                   (VOp OPCODE.EXIT)) as [z | b | o | s |] eqn:E;
      try (eexists; reflexivity); try (destruct b; eexists; reflexivity).
    exfalso. clear - E.
    induction ns as [|n ns IH]; [discriminate|].
    destruct ns as [|n' ns]; [discriminate | now apply IH]. }
  destruct Htext as (text & Htext). exists text. split; [exact Htext|].
  unfold interpret.
  replace (compile (program_text ns))
    with (compile_lines set_iter 1 (splitlines (program_text ns)) [])
    by reflexivity.
  rewrite splitlines_program_text, compile_lines_keyword_lines, Htok.
  rewrite length_map in Hrun. simpl app in Hrun. rewrite Hrun, Hlast, Htext.
  reflexivity.
Qed.

End MoreCompilerProperties.

(** ** The further theorems at work *)

Lemma dispatch_underflow_witness :
  Machine.dispatch ascii_digits_only (VOp OPCODE.ADD)
    (mkMachine [VInt 1] 0 0)
  = Raise IndexError (mkMachine [] 0 0).
Proof.
  apply (dispatch_underflow ascii_digits_only (mkMachine [VInt 1] 0 0)
           OPCODE.ADD).
  - left. reflexivity.
  - simpl. lia.
Defined.


Lemma run_raises_at_length_or_empty_witness :
  Machine.run ascii_digits_only 1
    (mkMachine [VStack; VStr []; VOp OPCODE.JMP] 3 5)
  = Some (Raise IndexError (mkMachine [VStack; VStr []; VOp OPCODE.JMP] 3 5)).
Proof.
  apply (run_raises_at_length_or_empty ascii_digits_only 0
           (mkMachine [VStack; VStr []; VOp OPCODE.JMP] 3 5)).
  left. reflexivity.
Defined.



Lemma CHAR_code_point_witness :
  Machine.dispatch ascii_digits_only (VOp OPCODE.CHAR)
    (mkMachine [VStack; VStr []; VInt 75; VOp OPCODE.CHAR; VOp OPCODE.EXIT;
                VInt 65] 4 5)
  = Ok tt (mkMachine [VStack; VStr []; VInt 75; VOp OPCODE.CHAR;
                      VOp OPCODE.EXIT; VStr (str "A")] 4 5).
Proof.
  apply (proj1 (CHAR_code_point ascii_digits_only
                  (mkMachine [VStack; VStr []; VInt 75; VOp OPCODE.CHAR;
                              VOp OPCODE.EXIT; VInt 65] 4 5)
                  [VStack; VStr []; VInt 75; VOp OPCODE.CHAR; VOp OPCODE.EXIT]
                  (VInt 65) 65 eq_refl eq_refl)).
  lia.
Defined.


Lemma compile_tokens_of_counts_witness :
  [VOp OPCODE.CHICKEN; VOp OPCODE.EXIT; VOp OPCODE.ADD]
  = map (fun line => count_token (List.length (split line)))
        (splitlines three_keyword_lines) /\
  Forall (fun token =>
            (exists o, token = VOp o) \/
            (exists n, token = VInt n /\ 9 < n))
         [VOp OPCODE.CHICKEN; VOp OPCODE.EXIT; VOp OPCODE.ADD].
Proof.
  apply (compile_tokens_of_counts as_listed three_keyword_lines
           [VOp OPCODE.CHICKEN; VOp OPCODE.EXIT; VOp OPCODE.ADD]).
  reflexivity.
Defined.

Lemma interpret_literal_program_witness :
  exists text,
    py_format (last (map (fun n => VInt (Z.of_nat n - 10)) [13; 20]%nat)
                    (VOp OPCODE.EXIT)) = Some text /\
    interpret as_listed ascii_digits_only 3 (program_text [13; 20]%nat) []
    = Some (Returned (Stdout text) EXIT_SUCCESS).
Proof.
  apply (interpret_literal_program as_listed ascii_digits_only
           [13; 20]%nat []).
  repeat constructor.
Defined.

(** Lines of 13 and 20 words: [interpret] prints 10. *)
Example interpret_13_20 :
  interpret as_listed ascii_digits_only 3 (program_text [13; 20]%nat) []
  = Some (Returned (Stdout (str "10")) EXIT_SUCCESS).
Proof. reflexivity. Qed.

(** * Tokens that are not opcodes, and the errors nothing catches *)

Section UncaughtErrors.

Variable Py_UNICODE_TODECIMAL : N -> option N.

Local Abbreviation dispatch := (Machine.dispatch Py_UNICODE_TODECIMAL).
Local Abbreviation step := (Machine.step Py_UNICODE_TODECIMAL).
Local Abbreviation run := (Machine.run Py_UNICODE_TODECIMAL).




End UncaughtErrors.

(** * The fresh machine *)

Lemma list_getitem_at (pre post : list value) (x i : value) :
  as_int i = Some (Z.of_nat (List.length pre)) ->
  list_getitem (pre ++ x :: post) i = inr x.
Proof.
  intros Hi. rewrite <- (list_getitem_middle pre post x).
  unfold list_getitem. now rewrite Hi.
Qed.

(** X21. The machine [__init__] builds: slot 0 is the list's reference to
    itself and slot 1 the input, so the tokens EXIT (0) and CHICKEN (1)
    select them as indices; token [i] of the program sits in slot [2 + i],
    where the instruction pointer starts, and the EXIT sentinel follows the
    last token; the data region is empty. *)
Theorem init_layout (code : list value) (stdin : pystr) :
  list_getitem (stack (Machine.init code stdin)) (VOp OPCODE.EXIT)
  = inr VStack /\
  list_getitem (stack (Machine.init code stdin)) (VOp OPCODE.CHICKEN)
  = inr (VStr stdin) /\
  (forall i token, nth_error code i = Some token ->
                   list_getitem (stack (Machine.init code stdin))
                                (VInt (2 + Z.of_nat i))
                   = inr token) /\
  list_getitem (stack (Machine.init code stdin))
               (VInt (2 + Z.of_nat (List.length code)))
  = inr (VOp OPCODE.EXIT) /\
  instruction_pointer (Machine.init code stdin) = 2 /\
  Machine.data_stack (Machine.init code stdin) = [].
Proof.
  split; [reflexivity|].
  split; [now apply (list_getitem_at [VStack])|].
  split; [|split; [|split]].
  - intros i token Hi.
    destruct (nth_error_split code i Hi) as (l1 & l2 & -> & <-).
    replace (2 + Z.of_nat (List.length l1))
      with (Z.of_nat (List.length (VStack :: VStr stdin :: l1))) by
        (simpl List.length; lia).
    simpl stack. rewrite <- app_assoc.
    apply (list_getitem_middle (VStack :: VStr stdin :: l1)).
  - replace (2 + Z.of_nat (List.length code))
      with (Z.of_nat (List.length (VStack :: VStr stdin :: code))) by
        (simpl List.length; lia).
    apply (list_getitem_middle (VStack :: VStr stdin :: code) []).
  - reflexivity.
  - unfold Machine.data_stack. simpl.
    rewrite <- (app_nil_r (code ++ [VOp OPCODE.EXIT])) at 2.
    apply (skipn_length_app (code ++ [VOp OPCODE.EXIT]) []).
Qed.



